(** * simplechat: the chat relay handler of [lambda/index.py]

    A shallow embedding of the Lambda entry point [lambda_handler] and of its
    helper [extract_region_from_arn], with the properties of the specification
    stated over it.

    Conventions of the embedding.
    - A Python [str] is a [string] holding the UTF-8 encoding of the text, so
      [s.encode('utf-8')] is the identity and [b.decode('utf-8')] is a
      validity check on the bytes.
    - The values that [json.loads] produces (and that the gateway puts in the
      event) are the terms of [json].  A [float] is carried as the text
      [json.dumps] prints for it.
    - The library calls whose code is not part of the repository
      ([json.loads], [json.dumps], [boto3.client], [urllib.request.urlopen],
      [os.environ]) are the fields of a [World]; the handler is a function of
      the world it runs in.
    - [print] writes to the log stream only: the evaluation of its arguments
      is modelled (it can raise), the text written is not.
    - A list is an object in a heap, so that [copy] and [append] act on
      what the variables of the handler refer to.
    - The text of the messages of [TypeError] and [AttributeError] follows
      CPython 3.12; no statement depends on it. *)

From stdpp Require Import base list strings pretty.
From Stdlib Require Import ZArith Lia.

Local Open Scope Z_scope.

(** ** Strings *)

Module Str.

(** [s.startswith(p)], returning what follows the prefix. *)
Fixpoint strip_prefix (p s : string) : option string :=
  match p, s with
  | EmptyString, _ => Some s
  | String a p', String b s' =>
      if Ascii.eqb a b then strip_prefix p' s' else None
  | String _ _, EmptyString => None
  end.

(** [sub in s] on two strings. *)
Fixpoint contains (sub s : string) : bool :=
  match strip_prefix sub s with
  | Some _ => true
  | None =>
      match s with
      | EmptyString => false
      | String _ s' => contains sub s'
      end
  end.

Definition colon : Ascii.ascii := Ascii.ascii_of_nat 58.

(** The longest run of characters other than [:] at the head of [s], and
    the rest of [s]. *)
Fixpoint span_non_colon (s : string) : string * string :=
  match s with
  | EmptyString => (EmptyString, EmptyString)
  | String c s' =>
      if Ascii.eqb c colon then (EmptyString, s)
      else let '(r, rest) := span_non_colon s' in (String c r, rest)
  end.

Fixpoint colon_free (s : string) : bool :=
  match s with
  | EmptyString => true
  | String c s' => negb (Ascii.eqb c colon) && colon_free s'
  end.

Definition is_empty (s : string) : bool :=
  match s with EmptyString => true | String _ _ => false end.

End Str.

(** ** [extract_region_from_arn] *)

(** The pattern ['arn:aws:lambda:([^:]+):'] tried at the head of [s]: the
    literal prefix, then the greedy class (one character at least), then a
    colon.  The class stops only at a colon or at the end of the string, so
    giving characters back never helps: the match fails when the run is
    empty or reaches the end. *)
Definition match_arn_here (s : string) : option string :=
  match Str.strip_prefix "arn:aws:lambda:" s with
  | None => None
  | Some t =>
      let '(region, rest) := Str.span_non_colon t in
      if Str.is_empty region then None
      else match rest with
           | String _ _ => Some region
           | EmptyString => None
           end
  end.

(** [re.search(pattern, arn)]: the leftmost position where the pattern
    matches; the value is group 1 of the match. *)
Fixpoint re_search_arn (arn : string) : option string :=
  match match_arn_here arn with
  | Some region => Some region
  | None =>
      match arn with
      | EmptyString => None
      | String _ arn' => re_search_arn arn'
      end
  end.

Definition extract_region_from_arn (arn : string) : string :=
  match re_search_arn arn with
  | Some region => region
  | None => "us-east-1"
  end.

(** [arn] holds, after [pre], the literal prefix, a region and a colon. *)
Definition lambda_arn_at (pre region rest arn : string) : Prop :=
  arn = pre +:+ "arn:aws:lambda:" +:+ region +:+ ":" +:+ rest.

(** ** Python values *)

Local Set Warnings "-register-all".

(** What [json.loads] returns, and what the gateway hands over as the event.
    A [dict] keeps its keys in insertion order; [JFloat] holds the text
    [json.dumps] prints for the float. *)
Inductive json : Type :=
  | JNull
  | JBool (b : bool)
  | JInt (n : Z)
  | JFloat (text : string)
  | JStr (s : string)
  | JList (items : list json)
  | JDict (fields : list (string * json)).

(** The exceptions the handler can meet.  All are subclasses of
    [Exception]; [HTTPError] is a subclass of [URLError]. *)
Inductive exn : Type :=
  | KeyError (key : string)
  | TypeError (msg : string)
  | AttributeError (msg : string)
  | JSONDecodeError (msg : string)
  | UnicodeDecodeError (msg : string)
  | HTTPError (code : Z) (reason : string) (fp : string)
  | URLError (reason : string)
  | PlainException (msg : string)
  | OtherError (cls msg : string).

(** [str(error)]. *)
Definition str_exn (e : exn) : string :=
  match e with
  | KeyError k => "'" +:+ k +:+ "'"
  | TypeError m | AttributeError m | JSONDecodeError m
  | UnicodeDecodeError m | PlainException m | OtherError _ m => m
  | HTTPError c r _ => "HTTP Error " +:+ pretty c +:+ ": " +:+ r
  | URLError r => "<urlopen error " +:+ r +:+ ">"
  end.

Definition result (A : Type) : Type := exn + A.

Module Py.

Definition type_name (v : json) : string :=
  match v with
  | JNull => "NoneType"
  | JBool _ => "bool"
  | JInt _ => "int"
  | JFloat _ => "float"
  | JStr _ => "str"
  | JList _ => "list"
  | JDict _ => "dict"
  end.

(** Truth value of an object, as [not x] and [x or y] test it. *)
Definition truthy (v : json) : bool :=
  match v with
  | JNull => false
  | JBool b => b
  | JInt n => negb (n =? 0)%Z
  | JFloat t => negb (String.eqb t "0.0" || String.eqb t "-0.0")
  | JStr s => negb (Str.is_empty s)
  | JList l => match l with [] => false | _ :: _ => true end
  | JDict d => match d with [] => false | _ :: _ => true end
  end.

Fixpoint lookup (k : string) (d : list (string * json)) : option json :=
  match d with
  | [] => None
  | (k', v) :: d' => if String.eqb k k' then Some v else lookup k d'
  end.

(** [x == k] for a string [k]. *)
Definition eq_str (k : string) (x : json) : bool :=
  match x with JStr s => String.eqb s k | _ => false end.

(** [k in v] for a string [k]. *)
Definition contains (k : string) (v : json) : result bool :=
  match v with
  | JDict d => inr (match lookup k d with Some _ => true | None => false end)
  | JList l => inr (existsb (eq_str k) l)
  | JStr s => inr (Str.contains k s)
  | _ => inl (TypeError ("argument of type '" +:+ type_name v
                         +:+ "' is not iterable"))
  end.

(** [v[k]] for a string [k]. *)
Definition getitem (v : json) (k : string) : result json :=
  match v with
  | JDict d =>
      match lookup k d with Some x => inr x | None => inl (KeyError k) end
  | JList _ =>
      inl (TypeError "list indices must be integers or slices, not str")
  | JStr _ => inl (TypeError "string indices must be integers, not 'str'")
  | _ => inl (TypeError ("'" +:+ type_name v
                         +:+ "' object is not subscriptable"))
  end.

Definition no_attribute (v : json) (attr : string) : exn :=
  AttributeError ("'" +:+ type_name v +:+ "' object has no attribute '"
                  +:+ attr +:+ "'").

(** [v.get(k, default)]. *)
Definition get (v : json) (k : string) (default : json) : result json :=
  match v with
  | JDict d =>
      inr (match lookup k d with Some x => x | None => default end)
  | _ => inl (no_attribute v "get")
  end.

End Py.

(** ** [bytes.decode('utf-8')] *)

Module Utf8.

Definition between (lo hi b : N) : bool := (lo <=? b)%N && (b <=? hi)%N.

(** The strict decoder as an automaton: [need] continuation bytes are still
    owed, the next of them within [lo..hi].  Overlong forms, surrogates and
    code points above U+10FFFF are refused through the range of the first
    continuation byte. *)
Fixpoint scan (need : nat) (lo hi : N) (s : string) : bool :=
  match s with
  | EmptyString => match need with O => true | S _ => false end
  | String c s' =>
      let b := Ascii.N_of_ascii c in
      match need with
      | S n => if between lo hi b then scan n 128 191 s' else false
      | O =>
          if (b <? 128)%N then scan 0 128 191 s'
          else if between 194 223 b then scan 1 128 191 s'
          else if (b =? 224)%N then scan 2 160 191 s'
          else if between 225 236 b || between 238 239 b
               then scan 2 128 191 s'
          else if (b =? 237)%N then scan 2 128 159 s'
          else if (b =? 240)%N then scan 3 144 191 s'
          else if between 241 243 b then scan 3 128 191 s'
          else if (b =? 244)%N then scan 3 128 143 s'
          else false
      end
  end.

Definition valid (s : string) : bool := scan 0 128 191 s.

(** [raw.decode('utf-8')]: the text is the bytes themselves when they are
    well-formed UTF-8.  The message of the error is shortened (Python adds
    the byte, its position and the reason). *)
Definition decode (raw : string) : result string :=
  if valid raw then inr raw
  else inl (UnicodeDecodeError "'utf-8' codec can't decode bytes").

End Utf8.

(** ** The world the handler runs in *)

(** The handle [boto3.client] returns. *)
Record Client : Type := mkClient {
  service_name : string;
  region_name : string
}.

(** [urllib.request.Request(url, data=, headers=, method=)]. *)
Record Request : Type := mkRequest {
  url : string;
  data : string;
  req_headers : list (string * string);
  method : string
}.

(** The calls that leave the handler, in the order they are made. *)
Inductive call : Type :=
  | CallExtractRegion (arn : string)
  | CallBoto3Client (service region : string)
  | CallUrlopen (req : Request) (timeout : Z).

Record World : Type := mkWorld {
  (** [os.environ] when the module is imported *)
  environ : list (string * string);
  (** [boto3.client(service, region_name=)] raises (class, message) or
      returns the handle *)
  boto3_client_raises : string -> string -> option (string * string);
  (** [urlopen(req, timeout=)] followed by [response.read()]: the bytes of
      a 2xx answer, or the exception raised *)
  urlopen : Request -> Z -> result string;
  (** [json.loads] of a string: the message of the [JSONDecodeError], or
      the value *)
  json_loads : string -> string + json;
  (** [json.dumps] *)
  json_dumps : json -> string
}.

(** The context object Lambda passes to the handler. *)
Record Context : Type := mkContext {
  invoked_function_arn : string
}.

(** The value the handler returns. *)
Record Response : Type := mkResponse {
  statusCode : Z;
  headers : list (string * string);
  body : string
}.

(** Process state: the module-level [bedrock_client], the list objects
    alive (a list is addressed by its index in [heap]), and the calls made
    so far. *)
Record state : Type := mkState {
  bedrock_client : option Client;
  heap : list (list json);
  trace : list call
}.

(** ** Computations that read and write the state and may raise *)

Definition M (A : Type) : Type := state -> result A * state.

Definition ret {A} (a : A) : M A := fun s => (inr a, s).

Definition raise {A} (e : exn) : M A := fun s => (inl e, s).

Definition bind {A B} (m : M A) (k : A -> M B) : M B :=
  fun s =>
    match m s with
    | (inr a, s') => k a s'
    | (inl e, s') => (inl e, s')
    end.

(** [try: m  except ... as error: h error]. *)
Definition try_except {A} (m : M A) (h : exn -> M A) : M A :=
  fun s =>
    match m s with
    | (inr a, s') => (inr a, s')
    | (inl e, s') => h e s'
    end.

Definition lift {A} (r : result A) : M A := fun s => (r, s).

Definition emit (c : call) : M unit :=
  fun s => (inr tt, mkState (bedrock_client s) (heap s) (trace s ++ [c])).

Declare Scope py_scope.
Delimit Scope py_scope with py.
Notation "x <- m ;; k" := (bind m (fun x => k))
  (at level 100, m at level 99, right associativity) : py_scope.
Notation "m ;;; k" := (bind m (fun _ => k))
  (at level 100, right associativity) : py_scope.

(** ** List objects *)

(** A variable of the handler that may hold a list refers to it by address;
    any other value is held as it is ([OVal] never holds a list that the
    handler goes on to change: [to_obj] and [copy_method] put lists in the
    heap). *)
Inductive obj : Type :=
  | OList (addr : nat)
  | OVal (v : json).

Definition alloc (l : list json) : M nat :=
  fun s => (inr (length (heap s)),
            mkState (bedrock_client s) (heap s ++ [l]) (trace s)).

Definition read (addr : nat) : M (list json) :=
  fun s => (inr (default [] (heap s !! addr)), s).

(** The object a freshly parsed value is: a list lives in the heap. *)
Definition to_obj (v : json) : M obj :=
  match v with
  | JList l => bind (alloc l) (fun a => ret (OList a))
  | _ => ret (OVal v)
  end.

(** [x.copy()]: a new list with the same items, or a new dict. *)
Definition copy_method (x : obj) : M obj :=
  match x with
  | OList a => bind (read a) (fun l => bind (alloc l) (fun a' => ret (OList a')))
  | OVal (JList l) => bind (alloc l) (fun a' => ret (OList a'))
  | OVal (JDict d) => ret (OVal (JDict d))
  | OVal v => raise (Py.no_attribute v "copy")
  end.

(** [x.append(item)]: in place, on a list. *)
Definition append_method (x : obj) (item : json) : M unit :=
  match x with
  | OList a =>
      fun s => (inr tt,
                mkState (bedrock_client s)
                        (alter (fun l => (l ++ [item])%list) a (heap s))
                        (trace s))
  | OVal v => raise (Py.no_attribute v "append")
  end.

(** The value a variable stands for when it is serialized. *)
Definition deref (x : obj) : M json :=
  match x with
  | OList a => bind (read a) (fun l => ret (JList l))
  | OVal v => ret v
  end.

Definition get_client : M (option Client) :=
  fun s => (inr (bedrock_client s), s).

Definition set_client (c : Client) : M unit :=
  fun s => (inr tt, mkState (Some c) (heap s) (trace s)).

(** ** The handler *)

Section Handler.

Variable W : World.

Local Open Scope py_scope.

(** [os.environ.get("API_ENDPOINT", <placeholder>)], read at import. *)
Definition API_ENDPOINT : string :=
  match List.find (fun kv => String.eqb (fst kv) "API_ENDPOINT") (environ W) with
  | Some kv => snd kv
  | None => "https://a1ae-34-124-132-250.ngrok-free.app/generate"
  end.

(** The [headers] every returned value carries. *)
Definition response_headers : list (string * string) :=
  [ ("Content-Type", "application/json");
    ("Access-Control-Allow-Origin", "*");
    ("Access-Control-Allow-Headers",
     "Content-Type,X-Amz-Date,Authorization,X-Api-Key,X-Amz-Security-Token");
    ("Access-Control-Allow-Methods", "OPTIONS,POST") ].

Definition boto3_client (service region : string) : M Client :=
  emit (CallBoto3Client service region) ;;;
  match boto3_client_raises W service region with
  | Some (cls, msg) => raise (OtherError cls msg)
  | None => ret (mkClient service region)
  end.

(** [json.loads(x)]. *)
Definition loads (x : json) : M json :=
  match x with
  | JStr s =>
      match json_loads W s with
      | inl msg => raise (JSONDecodeError msg)
      | inr v => ret v
      end
  | _ => raise (TypeError ("the JSON object must be str, bytes or bytearray, not "
                           +:+ Py.type_name x))
  end.

(** Lines 26-30: the client is built when the global is still [None]. *)
Definition init_client (context : Context) : M unit :=
  current <- get_client ;;
  match current with
  | Some _ => ret tt
  | None =>
      emit (CallExtractRegion (invoked_function_arn context)) ;;;
      let region := extract_region_from_arn (invoked_function_arn context) in
      client <- boto3_client "bedrock-runtime" region ;;
      set_client client
  end.

(** Lines 35-38: the claims of the authorizer, read for the log. *)
Definition read_user_info (event : json) : M unit :=
  has_context <- lift (Py.contains "requestContext" event) ;;
  has_authorizer <-
    (if has_context : bool
     then request_context <- lift (Py.getitem event "requestContext") ;;
          lift (Py.contains "authorizer" request_context)
     else ret false) ;;
  if has_authorizer : bool
  then
    request_context <- lift (Py.getitem event "requestContext") ;;
    authorizer <- lift (Py.getitem request_context "authorizer") ;;
    user_info <- lift (Py.getitem authorizer "claims") ;;
    email <- lift (Py.get user_info "email" JNull) ;;
    if Py.truthy email then ret tt
    else (_ <- lift (Py.get user_info "cognito:username" JNull) ;; ret tt)
  else ret tt.

Definition user_turn (message : json) : json :=
  JDict [("role", JStr "user"); ("content", message)].

Definition assistant_turn (assistant_response : json) : json :=
  JDict [("role", JStr "assistant"); ("content", assistant_response)].

(** Lines 59-65. *)
Definition request_data (message : json) : json :=
  JDict [ ("prompt", message);
          ("max_new_tokens", JInt 512);
          ("temperature", JFloat "0.7");
          ("top_p", JFloat "0.9");
          ("do_sample", JBool true) ].

(** Lines 68-78: the POST request for a message.  The endpoint is taken
    to be a URL that [urllib.request.Request] accepts. *)
Definition outbound_request (message : json) : Request :=
  mkRequest API_ENDPOINT
            (json_dumps W (request_data message))
            [("Content-Type", "application/json")]
            "POST".

(** Lines 25-55: the client, the log of the caller, the request and the
    conversation with the turn of the user in it.  The values are
    [message] and [messages].  [json.dumps(event)] of line 32 is total on
    the values of [json] and is only printed. *)
Definition prepare (event : json) (context : Context) : M (json * obj) :=
  init_client context ;;;
  read_user_info event ;;;
  raw <- lift (Py.getitem event "body") ;;
  body <- loads raw ;;
  message <- lift (Py.getitem body "message") ;;
  history <- lift (Py.get body "conversationHistory" (JList [])) ;;
  conversation_history <- to_obj history ;;
  messages <- copy_method conversation_history ;;
  append_method messages (user_turn message) ;;;
  ret (message, messages).

(** Lines 57-115: the call of the generation service and the answer. *)
Definition generate (message : json) (messages : obj) : M Response :=
  let req := outbound_request message in
  emit (CallUrlopen req 30) ;;;
  response_data <- lift (urlopen W req 30) ;;
  response_text <- lift (Utf8.decode response_data) ;;
  response_body <- loads (JStr response_text) ;;
  assistant_response <- lift (Py.get response_body "generated_text" (JStr "")) ;;
  if negb (Py.truthy assistant_response)
  then raise (PlainException "No response content from the model")
  else
    append_method messages (assistant_turn assistant_response) ;;;
    full <- deref messages ;;
    ret (mkResponse 200 response_headers
           (json_dumps W (JDict [ ("success", JBool true);
                                  ("response", assistant_response);
                                  ("conversationHistory", full) ]))).

(** Lines 25-115, the body of [try]. *)
Definition try_block (event : json) (context : Context) : M Response :=
  prepared <- prepare event context ;;
  generate (fst prepared) (snd prepared).

(** Lines 116-133, [except HTTPError as error].  [fp] is the body as
    [error.read()] returns it: a failure of the read itself is not
    modelled. *)
Definition on_http_error (code : Z) (reason fp : string) : M Response :=
  error_body <- lift (Utf8.decode fp) ;;
  ret (mkResponse 500 response_headers
         (json_dumps W
            (JDict [ ("success", JBool false);
                     ("error", JStr ("API Error: " +:+ pretty code
                                     +:+ " - " +:+ reason));
                     ("details", JStr error_body) ]))).

Definition suggestion : string :=
  "API endpoint may be unresponsive or too slow to respond within timeout limits.".

(** Lines 134-153, [except URLError as error]. *)
Definition on_url_error (error : exn) : M Response :=
  let error_message := str_exn error in
  (if Str.contains "timed out" error_message then ret tt else ret tt) ;;;
  ret (mkResponse 500 response_headers
         (json_dumps W
            (JDict [ ("success", JBool false);
                     ("error", JStr ("Connection Error: " +:+ error_message));
                     ("suggestion", JStr suggestion) ]))).

(** Lines 154-169, [except Exception as error]. *)
Definition on_exception (error : exn) : M Response :=
  ret (mkResponse 500 response_headers
         (json_dumps W
            (JDict [ ("success", JBool false);
                     ("error", JStr (str_exn error)) ]))).

(** The [except] clauses, tried in the order they are written. *)
Definition handle (error : exn) : M Response :=
  match error with
  | HTTPError code reason fp => on_http_error code reason fp
  | URLError _ => on_url_error error
  | _ => on_exception error
  end.

Definition lambda_handler (event : json) (context : Context) : M Response :=
  try_except (try_block event context) handle.

End Handler.

(** ** A sample world

    A small serializer in the layout of [json.dumps] (only the quote and
    the backslash are escaped), a parser that knows the texts of a table,
    and a generation service given by its answer.  The statements below
    hold in every world; this one runs them. *)

Module Sample.

Definition dq : string := String (Ascii.ascii_of_nat 34) EmptyString.
Definition backslash : string := String (Ascii.ascii_of_nat 92) EmptyString.

Fixpoint escape (s : string) : string :=
  match s with
  | EmptyString => EmptyString
  | String c s' =>
      let n := Ascii.nat_of_ascii c in
      if Nat.eqb n 34 then backslash +:+ dq +:+ escape s'
      else if Nat.eqb n 92 then backslash +:+ backslash +:+ escape s'
      else String c (escape s')
  end.

Definition quote (s : string) : string := dq +:+ escape s +:+ dq.

Fixpoint dumps (v : json) : string :=
  match v with
  | JNull => "null"
  | JBool true => "true"
  | JBool false => "false"
  | JInt n => pretty n
  | JFloat t => t
  | JStr s => quote s
  | JList l =>
      "[" +:+ (fix items (l : list json) : string :=
                 match l with
                 | [] => ""
                 | x :: l' =>
                     match l' with
                     | [] => dumps x
                     | _ :: _ => dumps x +:+ ", " +:+ items l'
                     end
                 end) l +:+ "]"
  | JDict d =>
      "{" +:+ (fix fields (d : list (string * json)) : string :=
                 match d with
                 | [] => ""
                 | (k, x) :: d' =>
                     match d' with
                     | [] => quote k +:+ ": " +:+ dumps x
                     | _ :: _ => quote k +:+ ": " +:+ dumps x +:+ ", " +:+ fields d'
                     end
                 end) d +:+ "}"
  end.

(** [json.loads] on the texts of [table]: the value whose serialization
    the text is. *)
Fixpoint loads_from (table : list json) (s : string) : string + json :=
  match table with
  | [] => inl "Expecting value: line 1 column 1 (char 0)"
  | v :: table' => if String.eqb s (dumps v) then inr v else loads_from table' s
  end.

(** The world where the parser knows [table], the client is built, and the
    generation service answers every request with [answer]. *)
Definition world (table : list json) (answer : result string) : World :=
  mkWorld [] (fun _ _ => None) (fun _ _ => answer) (loads_from table) dumps.

Definition context : Context :=
  mkContext "arn:aws:lambda:ap-northeast-1:123:function:f".

Definition cold : state := mkState None [] [].

Definition turn (role content : string) : json :=
  JDict [("role", JStr role); ("content", JStr content)].

(** An event of the gateway whose body is the serialization of [b]. *)
Definition event_of (b : json) : json := JDict [("body", JStr (dumps b))].

Definition hi : json := JDict [("message", JStr "hi")].

Definition hi_again : json :=
  JDict [ ("message", JStr "again");
          ("conversationHistory",
           JList [turn "user" "hi"; turn "assistant" "hello"]) ].

Definition no_message : json := JDict [("conversationHistory", JList [])].

Definition hello : json := JDict [("generated_text", JStr "hello")].

Definition empty_text : json := JDict [("generated_text", JStr "")].

Definition table : list json := [hi; hi_again; no_message; hello; empty_text].

(** One byte, 0xFF: no UTF-8 text starts with it. *)
Definition not_text : string := String (Ascii.ascii_of_nat 255) EmptyString.

(** Two bytes, 0xC3 0x28: the second is no continuation byte. *)
Definition truncated : string :=
  String (Ascii.ascii_of_nat 195) (String (Ascii.ascii_of_nat 40) EmptyString).

(** The service answers 502 with a body that is not text. *)
Definition bad_gateway : World :=
  world table (inl (HTTPError 502 "Bad Gateway" truncated)).

(** A runtime whose boto3 does not know the service: [boto3.client]
    raises. *)
Definition no_bedrock : World :=
  mkWorld [] (fun _ _ => Some ("UnknownServiceError",
                               "Unknown service: 'bedrock-runtime'"))
          (fun _ _ => inr (dumps hello)) (loads_from table) dumps.

Definition context_ireland : Context :=
  mkContext "arn:aws:lambda:eu-west-1:123:function:f".

(** The service answers 503 with a body that is not text. *)
Definition overloaded_binary : World :=
  world table (inl (HTTPError 503 "Service Unavailable" not_text)).

End Sample.

(** ** Vocabulary of the statements *)

(** The exceptions that reach [except Exception]: neither of the two
    classes caught before it. *)
Definition generic (e : exn) : bool :=
  match e with
  | HTTPError _ _ _ | URLError _ => false
  | _ => true
  end.

(** The calls an invocation makes for the client, by the state it starts
    in. *)
Definition init_events (context : Context) (s : state) : list call :=
  match bedrock_client s with
  | Some _ => []
  | None =>
      [ CallExtractRegion (invoked_function_arn context);
        CallBoto3Client "bedrock-runtime"
          (extract_region_from_arn (invoked_function_arn context)) ]
  end.

(** The calls added to the trace between two states. *)
Definition new_calls (before after : state) : list call :=
  drop (length (trace before)) (trace after).

(** The client an invocation leaves in the global, by the state it starts
    in. *)
Definition client_after (W : World) (context : Context) (s : state)
  : option Client :=
  match bedrock_client s with
  | Some c => Some c
  | None =>
      let region := extract_region_from_arn (invoked_function_arn context) in
      match boto3_client_raises W "bedrock-runtime" region with
      | Some _ => None
      | None => Some (mkClient "bedrock-runtime" region)
      end
  end.

(** The [conversationHistory] of a parsed request: the list given, the
    empty list when the key is absent; nothing when the value is no list. *)
Definition input_history (fields : list (string * json)) : option (list json) :=
  match Py.lookup "conversationHistory" fields with
  | None => Some []
  | Some (JList hist) => Some hist
  | Some _ => None
  end.

(** The calls of the initialization: the derivation of the region and the
    construction of the client. *)
Definition is_init (c : call) : bool :=
  match c with
  | CallExtractRegion _ | CallBoto3Client _ _ => true
  | CallUrlopen _ _ => false
  end.

(** The state after a sequence of invocations in one process. *)
Fixpoint invoke_all (W : World) (invocations : list (json * Context))
    (s : state) : state :=
  match invocations with
  | [] => s
  | (event, context) :: rest =>
      invoke_all W rest (lambda_handler W event context s).2
  end.

Definition is_urlopen (c : call) : bool :=
  match c with CallUrlopen _ _ => true | _ => false end.

(** The body of the generic error answer. *)
Definition error_body (W : World) (msg : string) : string :=
  json_dumps W (JDict [("success", JBool false); ("error", JStr msg)]).

(** ** More sample runs *)

Module Cases.

(** An answer whose [generated_text] is the number 0. *)
Definition zero_text : json := JDict [("generated_text", JInt 0)].

(** A request whose history is an object, not a list. *)
Definition history_object : json :=
  JDict [ ("message", JStr "hi");
          ("conversationHistory", JDict [("role", JStr "user")]) ].

Definition table : list json :=
  (Sample.table ++ [zero_text; history_object])%list.

Definition world (answer : result string) : World :=
  Sample.world table answer.

(** The read of the answer times out: [urlopen] lets a [TimeoutError]
    through. *)
Definition read_timeout : exn :=
  OtherError "TimeoutError" "The read operation timed out".

(** The service accepts the request and sends no answer within the 30
    seconds: [urlopen] wraps in [URLError] what fails while the request is
    sent, not what fails while the answer is awaited, and the
    [TimeoutError] of the socket comes out as it is. *)
Definition no_answer : World :=
  Sample.world Sample.table (inl (OtherError "TimeoutError" "timed out")).

End Cases.

(** * Properties *)

(** ** Strings *)

Local Arguments String.append !s1 s2 : simpl nomatch.

Lemma strip_prefix_app (p s : string) : Str.strip_prefix p (p +:+ s) = Some s.
Proof.
  induction p as [|a p IH]; simpl; [reflexivity|].
  now rewrite Ascii.eqb_refl.
Qed.

Lemma strip_prefix_Some (p s t : string) :
  Str.strip_prefix p s = Some t -> s = p +:+ t.
Proof.
  revert s; induction p as [|a p IH]; intros s H; simpl in *.
  - congruence.
  - destruct s as [|b s]; [discriminate|].
    destruct (Ascii.eqb_spec a b) as [->|]; [|discriminate].
    f_equal; auto.
Qed.

Lemma span_non_colon_app (r rest : string) :
  Str.colon_free r = true ->
  Str.span_non_colon (r +:+ String Str.colon rest) = (r, String Str.colon rest).
Proof.
  induction r as [|c r IH]; simpl; intros H.
  - reflexivity.
  - apply andb_true_iff in H as [Hc Hr].
    apply negb_true_iff in Hc. rewrite Hc, (IH Hr). reflexivity.
Qed.

Lemma span_non_colon_spec (s r rest : string) :
  Str.span_non_colon s = (r, rest) ->
  s = r +:+ rest /\ Str.colon_free r = true /\
  (rest = EmptyString \/ exists rest', rest = String Str.colon rest').
Proof.
  revert r rest; induction s as [|c s IH]; simpl; intros r rest H.
  - inversion H; subst; auto.
  - destruct (Ascii.eqb_spec c Str.colon) as [->|Hc].
    + inversion H; subst. simpl; eauto.
    + destruct (Str.span_non_colon s) as [r0 rest0] eqn:E.
      inversion H; subst.
      destruct (IH _ _ eq_refl) as (-> & Hr & Hrest).
      repeat split; simpl; auto.
      apply andb_true_iff; split; auto.
      apply negb_true_iff. now apply Ascii.eqb_neq.
Qed.

(** ** The pattern of [extract_region_from_arn] *)

Lemma match_arn_here_app (region rest : string) :
  region <> EmptyString -> Str.colon_free region = true ->
  match_arn_here ("arn:aws:lambda:" +:+ region +:+ ":" +:+ rest) = Some region.
Proof.
  intros Hne Hfree. unfold match_arn_here.
  rewrite strip_prefix_app.
  change (":" +:+ rest) with (String Str.colon rest).
  rewrite (span_non_colon_app _ _ Hfree).
  destruct region; [congruence | reflexivity].
Qed.

Lemma match_arn_here_Some (s region : string) :
  match_arn_here s = Some region ->
  region <> EmptyString /\ Str.colon_free region = true /\
  exists rest, lambda_arn_at EmptyString region rest s.
Proof.
  unfold match_arn_here, lambda_arn_at. intros H.
  destruct (Str.strip_prefix _ s) as [t|] eqn:Hp; [|discriminate].
  apply strip_prefix_Some in Hp.
  destruct (Str.span_non_colon t) as [r rest] eqn:Hs.
  apply span_non_colon_spec in Hs as (-> & Hfree & Hrest).
  destruct r as [|c r]; [discriminate|].
  destruct rest as [|c' rest]; [discriminate|].
  inversion H; subst region.
  destruct Hrest as [|[rest' Hr]]; [discriminate|].
  inversion Hr; subst.
  repeat split; [discriminate | assumption | exists rest'; reflexivity].
Qed.

Lemma re_search_arn_Some (arn region : string) :
  re_search_arn arn = Some region ->
  region <> EmptyString /\ Str.colon_free region = true /\
  exists pre rest, lambda_arn_at pre region rest arn.
Proof.
  induction arn as [|c arn IH]; simpl; intros H.
  - discriminate.
  - destruct (match_arn_here (String c arn)) as [r|] eqn:Hm.
    + inversion H; subst r.
      apply match_arn_here_Some in Hm as (? & ? & rest & ?).
      repeat split; auto. now exists EmptyString, rest.
    + destruct (IH H) as (? & ? & pre & rest & Hat).
      repeat split; auto. exists (String c pre), rest.
      unfold lambda_arn_at in *. simpl. now f_equal.
Qed.

(** C3 (as amended).  The pattern names the service: for every string that
    begins [arn:aws:lambda:<region>:] with a region that is not empty and
    holds no colon, [extract_region_from_arn] returns the region; for every
    string in which the literal [arn:aws:lambda:], such a region and a colon
    occur nowhere, it returns ["us-east-1"].  On
    [arn:aws:lambda:ap-northeast-1:123:function:f] it returns
    ["ap-northeast-1"], on a string that is no ARN the default. *)
Theorem extract_region_from_lambda_arn :
  (forall region rest : string,
      region <> EmptyString -> Str.colon_free region = true ->
      extract_region_from_arn ("arn:aws:lambda:" +:+ region +:+ ":" +:+ rest)
      = region) /\
  (forall arn : string,
      (forall pre region rest,
          region <> EmptyString -> Str.colon_free region = true ->
          ~ lambda_arn_at pre region rest arn) ->
      extract_region_from_arn arn = "us-east-1") /\
  extract_region_from_arn "arn:aws:lambda:ap-northeast-1:123:function:f"
  = "ap-northeast-1" /\
  extract_region_from_arn "not-an-arn" = "us-east-1".
Proof.
  split; [|split; [|split; reflexivity]].
  - intros region rest Hne Hfree. unfold extract_region_from_arn.
    assert (Hm := match_arn_here_app region rest Hne Hfree).
    destruct region as [|c region]; [congruence|].
    simpl in *. now rewrite Hm.
  - intros arn Hno. unfold extract_region_from_arn.
    destruct (re_search_arn arn) as [r|] eqn:E; [|reflexivity].
    apply re_search_arn_Some in E as (Hne & Hfree & pre & rest & Hat).
    now destruct (Hno pre r rest Hne Hfree).
Qed.

Lemma extract_region_from_lambda_arn_witness :
  "eu-west-1" <> EmptyString /\ Str.colon_free "eu-west-1" = true /\
  extract_region_from_arn ("arn:aws:lambda:" +:+ "eu-west-1" +:+ ":" +:+ "42:function:g")
  = "eu-west-1".
Proof.
  split; [discriminate|]. split; [reflexivity|].
  apply (proj1 extract_region_from_lambda_arn); [discriminate | reflexivity].
Defined.

(** C3 as stated fails: the identifier of another service has the form
    [arn:aws:<service>:<region>:...], and its fourth segment is not what
    the function returns. *)
Lemma extract_region_other_service :
  ~ (forall service region rest : string,
        Str.colon_free region = true ->
        extract_region_from_arn
          ("arn:aws:" +:+ service +:+ ":" +:+ region +:+ ":" +:+ rest)
        = region).
Proof.
  intros H. specialize (H "s3" "eu-west-1" "123:bucket" eq_refl).
  vm_compute in H. discriminate.
Qed.

(** ** Running the steps of the handler *)

Lemma contains_generic (k : string) (v : json) (e : exn) :
  Py.contains k v = inl e -> generic e = true.
Proof. destruct v; simpl; intros H; inversion H; reflexivity. Qed.

Lemma getitem_generic (v : json) (k : string) (e : exn) :
  Py.getitem v k = inl e -> generic e = true.
Proof.
  destruct v; simpl; intros H; try (inversion H; reflexivity).
  destruct (Py.lookup k fields); inversion H; reflexivity.
Qed.

Lemma get_generic (v : json) (k : string) (d : json) (e : exn) :
  Py.get v k d = inl e -> generic e = true.
Proof. destruct v; simpl; intros H; inversion H; reflexivity. Qed.

Lemma decode_generic (raw : string) (e : exn) :
  Utf8.decode raw = inl e -> generic e = true.
Proof.
  unfold Utf8.decode. destruct (Utf8.valid raw); intros H; inversion H.
  reflexivity.
Qed.

Create HintDb py.

#[local] Hint Resolve contains_generic getitem_generic get_generic
  decode_generic : py.

(** Destructs the scrutinee of the first [match] of the goal. *)
Ltac case_step :=
  match goal with
  | |- context [match ?x with _ => _ end] =>
      lazymatch x with
      | context [match _ with _ => _ end] => fail
      | _ => destruct x eqn:?
      end
  end.

Lemma read_user_info_spec (event : json) (s : state) :
  exists r, read_user_info event s = (r, s) /\
            (r = inr tt \/ exists e, r = inl e /\ generic e = true).
Proof.
  unfold read_user_info, bind, lift, ret.
  repeat (case_step; simpl);
    eexists; split; try reflexivity; eauto with py.
Qed.

Lemma init_client_spec (W : World) (context : Context) (s : state) :
  exists r s0, init_client W context s = (r, s0) /\
    trace s0 = (trace s ++ init_events context s)%list /\
    heap s0 = heap s /\
    bedrock_client s0 = client_after W context s /\
    (r = inr tt \/ exists e, r = inl e /\ generic e = true).
Proof.
  unfold init_client, boto3_client, client_after, init_events,
    bind, get_client, set_client, emit, raise, ret.
  destruct s as [[c|] h t]; simpl.
  - do 2 eexists; split; [reflexivity|]. rewrite app_nil_r. auto.
  - destruct (boto3_client_raises W _ _) as [[cls msg]|]; simpl;
      do 2 eexists; (split; [reflexivity|]); simpl;
      rewrite <- app_assoc; simpl; eauto 7.
Qed.

(** The heap after a list is parsed, copied, and the copy appended to. *)
Lemma heap_copy_append (h : list (list json)) (hist : list json) (item : json) :
  alter (fun l => (l ++ [item])%list) (S (length h))
        ((h ++ [hist]) ++ [default [] ((h ++ [hist]) !! length h)])
  = (h ++ [hist; (hist ++ [item])%list])%list.
Proof.
  rewrite list_lookup_middle by reflexivity. simpl.
  rewrite <- app_assoc. simpl.
  induction h as [|x h IH]; simpl; [reflexivity|].
  f_equal. exact IH.
Qed.

Lemma prepare_spec (W : World) (event : json) (context : Context)
    (s s1 : state) (r : result (json * obj)) :
  prepare W event context s = (r, s1) ->
  trace s1 = (trace s ++ init_events context s)%list /\
  bedrock_client s1 = client_after W context s /\
  match r with
  | inl e => generic e = true /\ heap s1 = heap s
  | inr (message, messages) =>
      exists raw body hist,
        Py.getitem event "body" = inr (JStr raw) /\
        json_loads W raw = inr body /\
        Py.getitem body "message" = inr message /\
        Py.get body "conversationHistory" (JList []) = inr (JList hist) /\
        messages = OList (S (length (heap s))) /\
        heap s1 = (heap s ++ [hist; (hist ++ [user_turn message])%list])%list
  end.
Proof.
  unfold prepare, bind.
  destruct (init_client_spec W context s) as (r0 & s0 & E0 & Ht & Hh & Hc & Hr).
  rewrite E0.
  destruct Hr as [->|(e & -> & He)];
    [|intros H; inversion H; subst; auto].
  destruct (read_user_info_spec event s0) as (r1 & E1 & Hr1).
  rewrite E1.
  destruct Hr1 as [->|(e & -> & He)];
    [|intros H; inversion H; subst; auto].
  unfold lift, loads, raise, ret.
  destruct (Py.getitem event "body") as [e|raw] eqn:Eb;
    [intros H; inversion H; subst; eauto 6 with py|].
  destruct raw as [| | | |raw| |];
    try (intros H; inversion H; subst; simpl; now auto).
  destruct (json_loads W raw) as [msg|body] eqn:El;
    [intros H; inversion H; subst; simpl; now auto|].
  destruct (Py.getitem body "message") as [e|message] eqn:Em;
    [intros H; inversion H; subst; eauto 6 with py|].
  destruct (Py.get body "conversationHistory" (JList [])) as [e|hv] eqn:Eh;
    [intros H; inversion H; subst; eauto 6 with py|].
  destruct hv as [| | | | |hist|d]; simpl;
    try (intros H; inversion H; subst; simpl; now auto).
  intros H; inversion H; subst; simpl.
  rewrite !length_app, Hh. simpl.
  replace (length (heap s) + 1)%nat with (S (length (heap s))) by lia.
  rewrite heap_copy_append.
  repeat split; auto.
  exists raw, body, hist. auto 7.
Qed.

Lemma new_calls_app (s s' : state) (evs : list call) :
  trace s' = (trace s ++ evs)%list -> new_calls s s' = evs.
Proof.
  intros H. unfold new_calls. rewrite H.
  rewrite drop_app_length. reflexivity.
Qed.

Lemma init_events_not_urlopen (context : Context) (s : state) :
  forallb (fun c => negb (is_urlopen c)) (init_events context s) = true.
Proof. unfold init_events. destruct (bedrock_client s); reflexivity. Qed.

Lemma handle_generic (W : World) (e : exn) (s : state) :
  generic e = true ->
  handle W e s = (inr (mkResponse 500 response_headers (error_body W (str_exn e))), s).
Proof. destruct e; simpl; intros H; try discriminate; reflexivity. Qed.

Lemma alter_second (h : list (list json)) (x y : list json)
    (f : list json -> list json) :
  alter f (S (length h)) (h ++ [x; y]) = (h ++ [x; f y])%list.
Proof. induction h as [|z h IH]; simpl; [reflexivity|]. f_equal. exact IH. Qed.

Lemma lookup_second (h : list (list json)) (x y : list json) :
  (h ++ [x; y]) !! S (length h) = Some y.
Proof. induction h as [|z h IH]; simpl; [reflexivity|]. exact IH. Qed.

Lemma lookup_first (h : list (list json)) (x y : list json) :
  (h ++ [x; y]) !! length h = Some x.
Proof. induction h as [|z h IH]; simpl; [reflexivity|]. exact IH. Qed.

Lemma get_input_history (fields : list (string * json)) (hist : list json) :
  Py.get (JDict fields) "conversationHistory" (JList []) = inr (JList hist) ->
  input_history fields = Some hist.
Proof.
  unfold input_history. simpl.
  destruct (Py.lookup "conversationHistory" fields) as [v|]; intros H;
    inversion H; subst; reflexivity.
Qed.

(** An invocation either stops before the outbound call, on an exception
    that [except Exception] turns into the generic answer, or it reaches
    the call with the request parsed and the turn of the user appended to
    a copy of the history. *)
Lemma lambda_handler_cases (W : World) (event : json) (context : Context)
    (s : state) :
  (exists e,
      generic e = true /\
      lambda_handler W event context s
      = (inr (mkResponse 500 response_headers (error_body W (str_exn e))),
         mkState (client_after W context s) (heap s)
                 (trace s ++ init_events context s)))
  \/
  (exists raw body message hist,
      Py.getitem event "body" = inr (JStr raw) /\
      json_loads W raw = inr body /\
      Py.getitem body "message" = inr message /\
      Py.get body "conversationHistory" (JList []) = inr (JList hist) /\
      lambda_handler W event context s
      = try_except (generate W message (OList (S (length (heap s)))))
          (handle W)
          (mkState (client_after W context s)
                   (heap s ++ [hist; (hist ++ [user_turn message])%list])
                   (trace s ++ init_events context s))).
Proof.
  assert (E : lambda_handler W event context s
              = match prepare W event context s with
                | (inr p, s1) => try_except (generate W p.1 p.2) (handle W) s1
                | (inl e, s1) => handle W e s1
                end).
  { unfold lambda_handler, try_block, try_except, bind.
    destruct (prepare W event context s) as [[e|p] s1]; reflexivity. }
  rewrite E. clear E.
  destruct (prepare W event context s) as [r s1] eqn:Ep.
  apply prepare_spec in Ep as (Ht & Hc & Hr).
  destruct s1 as [c1 h1 t1]; simpl in *; subst c1 t1.
  destruct r as [e|[message messages]].
  - destruct Hr as [He ->]. left. exists e. split; [assumption|].
    now apply handle_generic.
  - destruct Hr as (raw & body & hist & Hb & Hl & Hm & Hh & -> & ->).
    right. exists raw, body, message, hist. simpl.
    repeat split; assumption || reflexivity.
Qed.

(** ** The relay of a message *)

(** C1.  When the body of the event parses to a request with a [message],
    the outbound call is made, and it succeeds with a [generated_text] [g]
    that is not empty, [lambda_handler] returns status 200; the body has
    [response] equal to [g] and [conversationHistory] equal to the history
    of the request (empty when absent), then [{role: user, content:
    message}], then [{role: assistant, content: g}]. *)
Theorem lambda_handler_success (W : World) (event : json) (context : Context)
    (s : state) (raw : string) (fields : list (string * json)) (message : json)
    (data text : string) (answer : list (string * json)) (g : json) :
  Py.getitem event "body" = inr (JStr raw) ->
  json_loads W raw = inr (JDict fields) ->
  Py.lookup "message" fields = Some message ->
  In (CallUrlopen (outbound_request W message) 30)
     (new_calls s (lambda_handler W event context s).2) ->
  urlopen W (outbound_request W message) 30 = inr data ->
  Utf8.decode data = inr text ->
  json_loads W text = inr (JDict answer) ->
  Py.lookup "generated_text" answer = Some g ->
  Py.truthy g = true ->
  exists hist,
    input_history fields = Some hist /\
    (lambda_handler W event context s).1
    = inr (mkResponse 200 response_headers
             (json_dumps W
                (JDict [ ("success", JBool true);
                         ("response", g);
                         ("conversationHistory",
                          JList (hist ++
                                 [ JDict [ ("role", JStr "user");
                                           ("content", message) ];
                                   JDict [ ("role", JStr "assistant");
                                           ("content", g) ] ])) ]))).
Proof.
  intros Hb Hl Hm Hcall Hurl Hdec Hans Hg Htrue.
  destruct (lambda_handler_cases W event context s)
    as [(e & He & E)|(raw' & body & message' & hist & Hb' & Hl' & Hm' & Hh & E)].
  - rewrite E in Hcall. simpl in Hcall.
    rewrite (new_calls_app s _ (init_events context s)) in Hcall by reflexivity.
    unfold init_events in Hcall.
    destruct (bedrock_client s); simpl in Hcall; intuition discriminate.
  - rewrite Hb in Hb'. inversion Hb'; subst raw'.
    rewrite Hl in Hl'. inversion Hl'; subst body.
    simpl in Hm'. rewrite Hm in Hm'. inversion Hm'; subst message'.
    exists hist. split; [now apply get_input_history|].
    rewrite E.
    unfold try_except, generate, bind, emit, lift, loads, raise, ret,
      append_method, deref, read.
    simpl. rewrite Hurl, Hdec, Hans. simpl. rewrite Hg, Htrue. simpl.
    rewrite alter_second, lookup_second. simpl.
    rewrite <- app_assoc. reflexivity.
Qed.

Lemma lambda_handler_success_witness :
  exists hist,
    input_history [("message", JStr "hi")] = Some hist /\
    (lambda_handler (Sample.world Sample.table (inr (Sample.dumps Sample.hello)))
       (Sample.event_of Sample.hi) Sample.context Sample.cold).1
    = inr (mkResponse 200
             (response_headers)
             (Sample.dumps
                (JDict [ ("success", JBool true);
                         ("response", JStr "hello");
                         ("conversationHistory",
                          JList (hist ++
                                 [ JDict [ ("role", JStr "user");
                                           ("content", JStr "hi") ];
                                   JDict [ ("role", JStr "assistant");
                                           ("content", JStr "hello") ] ])) ]))).
Proof.
  apply (lambda_handler_success
           (Sample.world Sample.table (inr (Sample.dumps Sample.hello)))
           (Sample.event_of Sample.hi) Sample.context Sample.cold
           (Sample.dumps Sample.hi) [("message", JStr "hi")] (JStr "hi")
           (Sample.dumps Sample.hello) (Sample.dumps Sample.hello)
           [("generated_text", JStr "hello")] (JStr "hello"));
    try reflexivity.
  vm_compute. right; right; left; reflexivity.
Defined.

(** What the second half of an invocation does to the state, whatever the
    answer of the service: one call is added, the client is kept, and no
    list but [messages] is touched. *)
Lemma generate_handled_state (W : World) (message : json) (a : nat)
    (s1 : state) :
  exists r s2,
    try_except (generate W message (OList a)) (handle W) s1 = (r, s2) /\
    trace s2 = (trace s1 ++ [CallUrlopen (outbound_request W message) 30])%list /\
    bedrock_client s2 = bedrock_client s1 /\
    length (heap s2) = length (heap s1) /\
    forall i, i <> a -> heap s2 !! i = heap s1 !! i.
Proof.
  unfold try_except, generate, bind, emit, lift, loads, raise, ret,
    append_method, deref, read, handle, on_http_error, on_url_error,
    on_exception, bind, lift, ret.
  simpl.
  repeat (case_step; simpl);
    do 2 eexists; (split; [reflexivity|]); simpl;
    repeat split; auto; try (now rewrite length_alter);
    intros i Hi; now rewrite list_lookup_alter_ne by auto.
Qed.

(** The state an invocation leaves: the client, the lists that existed
    before, the calls made, and the list parsed from the request. *)
Lemma lambda_handler_state (W : World) (event : json) (context : Context)
    (s : state) :
  let s' := (lambda_handler W event context s).2 in
  bedrock_client s' = client_after W context s /\
  (forall i, (i < length (heap s))%nat -> heap s' !! i = heap s !! i) /\
  ((new_calls s s' = init_events context s /\ heap s' = heap s)
   \/
   (exists raw body message hist,
       Py.getitem event "body" = inr (JStr raw) /\
       json_loads W raw = inr body /\
       Py.getitem body "message" = inr message /\
       Py.get body "conversationHistory" (JList []) = inr (JList hist) /\
       new_calls s s'
       = (init_events context s ++ [CallUrlopen (outbound_request W message) 30])%list /\
       heap s' !! length (heap s) = Some hist /\
       length (heap s') = (length (heap s) + 2)%nat)).
Proof.
  intros s'. subst s'.
  destruct (lambda_handler_cases W event context s)
    as [(e & He & E)|(raw & body & message & hist & Hb & Hl & Hm & Hh & E)];
    rewrite E; clear E.
  - simpl. repeat split; auto. left. split; [|reflexivity].
    now apply new_calls_app.
  - match goal with
    | |- context [try_except (generate W ?m (OList ?a)) _ ?s1] =>
        destruct (generate_handled_state W m a s1)
          as (r & s2 & E & Ht & Hc & Hlen & Hheap)
    end.
    rewrite E. simpl in *.
    split; [assumption|]. split.
    + intros i Hi. rewrite Hheap by lia.
      now rewrite lookup_app_l by assumption.
    + right. exists raw, body, message, hist.
      repeat split; try assumption.
      * apply new_calls_app. now rewrite Ht, <- app_assoc.
      * rewrite Hheap by lia. apply lookup_first.
      * rewrite Hlen, length_app. reflexivity.
Qed.

(** C4.  For every parsed request, an outbound call the invocation makes
    is the POST of the serialization of
    [{prompt: message, max_new_tokens: 512, temperature: 0.7, top_p: 0.9,
    do_sample: true}] with the message as it came: the request is fixed by
    the message and the world alone, so the history of the request has no
    part in it. *)
Theorem outbound_payload (W : World) (event : json) (context : Context)
    (s : state) (raw : string) (body message : json) (req : Request)
    (timeout : Z) :
  Py.getitem event "body" = inr (JStr raw) ->
  json_loads W raw = inr body ->
  Py.getitem body "message" = inr message ->
  In (CallUrlopen req timeout)
     (new_calls s (lambda_handler W event context s).2) ->
  req = mkRequest (API_ENDPOINT W)
          (json_dumps W
             (JDict [ ("prompt", message);
                      ("max_new_tokens", JInt 512);
                      ("temperature", JFloat "0.7");
                      ("top_p", JFloat "0.9");
                      ("do_sample", JBool true) ]))
          [("Content-Type", "application/json")]
          "POST"
  /\ timeout = 30.
Proof.
  intros Hb Hl Hm Hin.
  destruct (lambda_handler_state W event context s) as (_ & _ & Hcalls).
  destruct Hcalls
    as [[Hc _]|(raw' & body' & message' & hist & Hb' & Hl' & Hm' & _ & Hc & _)];
    rewrite Hc in Hin.
  - unfold init_events in Hin.
    destruct (bedrock_client s); simpl in Hin; intuition discriminate.
  - rewrite Hb in Hb'. inversion Hb'; subst raw'.
    rewrite Hl in Hl'. inversion Hl'; subst body'.
    rewrite Hm in Hm'. inversion Hm'; subst message'.
    apply in_app_or in Hin as [Hin|Hin].
    + unfold init_events in Hin.
      destruct (bedrock_client s); simpl in Hin; intuition discriminate.
    + simpl in Hin. destruct Hin as [Hin|[]].
      inversion Hin; subst. split; reflexivity.
Qed.

Lemma outbound_payload_witness :
  outbound_request (Sample.world Sample.table (inr (Sample.dumps Sample.hello)))
    (JStr "again")
  = mkRequest "https://a1ae-34-124-132-250.ngrok-free.app/generate"
      (Sample.dumps
         (JDict [ ("prompt", JStr "again");
                  ("max_new_tokens", JInt 512);
                  ("temperature", JFloat "0.7");
                  ("top_p", JFloat "0.9");
                  ("do_sample", JBool true) ]))
      [("Content-Type", "application/json")]
      "POST"
  /\ 30 = 30.
Proof.
  apply (outbound_payload
           (Sample.world Sample.table (inr (Sample.dumps Sample.hello)))
           (Sample.event_of Sample.hi_again) Sample.context Sample.cold
           (Sample.dumps Sample.hi_again) Sample.hi_again (JStr "again"));
    try reflexivity.
  vm_compute. right; right; left; reflexivity.
Defined.

(** ** The answers to a failed call *)

(** An outbound call found among the calls of an invocation is the call of
    [generate], made on the request parsed from the event. *)
Lemma call_made (W : World) (event : json) (context : Context) (s : state)
    (req : Request) (timeout : Z) :
  In (CallUrlopen req timeout)
     (new_calls s (lambda_handler W event context s).2) ->
  exists raw body message hist,
    Py.getitem event "body" = inr (JStr raw) /\
    json_loads W raw = inr body /\
    Py.getitem body "message" = inr message /\
    Py.get body "conversationHistory" (JList []) = inr (JList hist) /\
    req = outbound_request W message /\ timeout = 30 /\
    lambda_handler W event context s
    = try_except (generate W message (OList (S (length (heap s)))))
        (handle W)
        (mkState (client_after W context s)
                 (heap s ++ [hist; (hist ++ [user_turn message])%list])
                 (trace s ++ init_events context s)).
Proof.
  intros Hin.
  destruct (lambda_handler_cases W event context s)
    as [(e & He & E)|(raw & body & message & hist & Hb & Hl & Hm & Hh & E)].
  - rewrite E in Hin. simpl in Hin.
    rewrite (new_calls_app s _ (init_events context s)) in Hin by reflexivity.
    unfold init_events in Hin.
    destruct (bedrock_client s); simpl in Hin; intuition discriminate.
  - exists raw, body, message, hist. repeat split; try assumption.
    all: destruct (lambda_handler_state W event context s) as (_ & _ & Hcalls).
    all: destruct Hcalls
      as [[Hc _]|(raw' & body' & message' & hist' & Hb' & Hl' & Hm' & _ & Hc & _)];
      rewrite Hc in Hin.
    all: try (unfold init_events in Hin;
              destruct (bedrock_client s); simpl in Hin; intuition discriminate).
    all: rewrite Hb in Hb'; inversion Hb'; subst raw'.
    all: rewrite Hl in Hl'; inversion Hl'; subst body'.
    all: rewrite Hm in Hm'; inversion Hm'; subst message'.
    all: apply in_app_or in Hin as [Hin|Hin];
      [unfold init_events in Hin;
       destruct (bedrock_client s); simpl in Hin; intuition discriminate|].
    all: simpl in Hin; destruct Hin as [Hin|[]]; inversion Hin; reflexivity.
Qed.

Lemma contains_prefix (sub s t : string) :
  Str.strip_prefix sub s = Some t -> Str.contains sub s = true.
Proof. intros H. destruct s; simpl; simpl in H; now rewrite H. Qed.

Lemma contains_app (sub pre post : string) :
  Str.contains sub (pre +:+ sub +:+ post) = true.
Proof.
  induction pre as [|c pre IH]; simpl.
  - apply (contains_prefix _ _ post), strip_prefix_app.
  - destruct (Str.strip_prefix sub (String c (pre +:+ sub +:+ post)));
      [reflexivity | exact IH].
Qed.

(** X14.  The answer to a remote HTTP error whose body is text.  When the
    outbound call is made and the service answers with a status [c] that
    is not 2xx, reason [r] and an error body that decodes to [d],
    [lambda_handler] returns status 500 with the body
    [{success: false, error: "API Error: <c> - <r>", details: d}]; the
    error text contains the digits of [c]. *)
Theorem lambda_handler_http_error (W : World) (event : json)
    (context : Context) (s : state) (req : Request) (timeout : Z)
    (c : Z) (r fp d : string) :
  In (CallUrlopen req timeout)
     (new_calls s (lambda_handler W event context s).2) ->
  urlopen W req timeout = inl (HTTPError c r fp) ->
  Utf8.decode fp = inr d ->
  (lambda_handler W event context s).1
  = inr (mkResponse 500 response_headers
           (json_dumps W
              (JDict [ ("success", JBool false);
                       ("error", JStr ("API Error: " +:+ pretty c +:+ " - " +:+ r));
                       ("details", JStr d) ])))
  /\ Str.contains (pretty c) ("API Error: " +:+ pretty c +:+ " - " +:+ r) = true.
Proof.
  intros Hin Hurl Hdec. split; [|apply contains_app].
  apply call_made in Hin
    as (raw & body & message & hist & _ & _ & _ & _ & -> & -> & E).
  rewrite E.
  unfold try_except, generate, bind, emit, lift. simpl.
  rewrite Hurl. simpl.
  unfold on_http_error, bind, lift, ret. now rewrite Hdec.
Qed.

Lemma lambda_handler_http_error_witness :
  (lambda_handler
     (Sample.world Sample.table (inl (HTTPError 503 "Service Unavailable" "overloaded")))
     (Sample.event_of Sample.hi) Sample.context Sample.cold).1
  = inr (mkResponse 500 response_headers
           (Sample.dumps
              (JDict [ ("success", JBool false);
                       ("error", JStr "API Error: 503 - Service Unavailable");
                       ("details", JStr "overloaded") ])))
  /\ Str.contains "503" "API Error: 503 - Service Unavailable" = true.
Proof.
  apply (lambda_handler_http_error
           (Sample.world Sample.table
              (inl (HTTPError 503 "Service Unavailable" "overloaded")))
           (Sample.event_of Sample.hi) Sample.context Sample.cold
           (outbound_request
              (Sample.world Sample.table
                 (inl (HTTPError 503 "Service Unavailable" "overloaded")))
              (JStr "hi"))
           30 503 "Service Unavailable" "overloaded" "overloaded");
    try reflexivity.
  vm_compute. right; right; left; reflexivity.
Defined.

(** C5 on the code: a 503 whose body is not UTF-8 text.  The call is made,
    the service answers with a status that is not 2xx, and the handler
    returns no status 500: [error.read().decode('utf-8')] raises inside
    the [except HTTPError] clause, and the exception leaves the handler. *)
Theorem lambda_handler_http_error_undecodable :
  In (CallUrlopen (outbound_request Sample.overloaded_binary (JStr "hi")) 30)
     (new_calls Sample.cold
        (lambda_handler Sample.overloaded_binary (Sample.event_of Sample.hi)
           Sample.context Sample.cold).2) /\
  urlopen Sample.overloaded_binary
    (outbound_request Sample.overloaded_binary (JStr "hi")) 30
  = inl (HTTPError 503 "Service Unavailable" Sample.not_text) /\
  (exists msg,
      (lambda_handler Sample.overloaded_binary (Sample.event_of Sample.hi)
         Sample.context Sample.cold).1
      = inl (UnicodeDecodeError msg)).
Proof.
  split; [|split; [reflexivity | eexists; reflexivity]].
  vm_compute. right; right; left; reflexivity.
Qed.

(** X17.  When the outbound call is made and raises a [URLError] whose
    text is [m], [lambda_handler] returns status 500 with the body
    [{success: false, error: "Connection Error: <m>", suggestion: <the
    advisory text>}].  The answer depends on the error through [m] alone:
    the test for [timed out] only prints. *)
Theorem lambda_handler_connection_error (W : World) (event : json)
    (context : Context) (s : state) (req : Request) (timeout : Z)
    (reason : string) :
  In (CallUrlopen req timeout)
     (new_calls s (lambda_handler W event context s).2) ->
  urlopen W req timeout = inl (URLError reason) ->
  (lambda_handler W event context s).1
  = inr (mkResponse 500 response_headers
           (json_dumps W
              (JDict [ ("success", JBool false);
                       ("error", JStr ("Connection Error: "
                                       +:+ str_exn (URLError reason)));
                       ("suggestion",
                        JStr "API endpoint may be unresponsive or too slow to respond within timeout limits.") ]))).
Proof.
  intros Hin Hurl.
  apply call_made in Hin
    as (raw & body & message & hist & _ & _ & _ & _ & -> & -> & E).
  rewrite E.
  unfold try_except, generate, bind, emit, lift. simpl.
  rewrite Hurl. simpl.
  unfold on_url_error, bind, ret.
  destruct (Str.contains "timed out" _); reflexivity.
Qed.

Lemma lambda_handler_connection_error_witness :
  (lambda_handler (Sample.world Sample.table (inl (URLError "timed out")))
     (Sample.event_of Sample.hi) Sample.context Sample.cold).1
  = inr (mkResponse 500 response_headers
           (Sample.dumps
              (JDict [ ("success", JBool false);
                       ("error", JStr "Connection Error: <urlopen error timed out>");
                       ("suggestion",
                        JStr "API endpoint may be unresponsive or too slow to respond within timeout limits.") ]))).
Proof.
  apply (lambda_handler_connection_error
           (Sample.world Sample.table (inl (URLError "timed out")))
           (Sample.event_of Sample.hi) Sample.context Sample.cold
           (outbound_request
              (Sample.world Sample.table (inl (URLError "timed out")))
              (JStr "hi"))
           30 "timed out");
    [|reflexivity].
  vm_compute. right; right; left; reflexivity.
Defined.

(** C6 on the code: a timeout that is no [URLError].  The request is
    sent, the service does not answer within the 30 seconds, and the
    [TimeoutError] that [urlopen] lets through is caught by
    [except Exception], not by [except URLError], where the code tests for
    [timed out]: the answer is [{success: false, error: "timed out"}],
    without the [Connection Error:] prefix and without [suggestion].  A
    timeout that arrives as a [URLError] gets both. *)
Theorem lambda_handler_timeout_not_connection_error :
  In (CallUrlopen (outbound_request Cases.no_answer (JStr "again")) 30)
     (new_calls Sample.cold
        (lambda_handler Cases.no_answer (Sample.event_of Sample.hi_again)
           Sample.context Sample.cold).2) /\
  urlopen Cases.no_answer (outbound_request Cases.no_answer (JStr "again")) 30
  = inl (OtherError "TimeoutError" "timed out") /\
  (lambda_handler Cases.no_answer (Sample.event_of Sample.hi_again)
     Sample.context Sample.cold).1
  = inr (mkResponse 500 response_headers
           (Sample.dumps (JDict [ ("success", JBool false);
                                  ("error", JStr "timed out") ]))) /\
  (lambda_handler (Sample.world Sample.table (inl (URLError "timed out")))
     (Sample.event_of Sample.hi_again) Sample.context Sample.cold).1
  = inr (mkResponse 500 response_headers
           (Sample.dumps
              (JDict [ ("success", JBool false);
                       ("error", JStr "Connection Error: <urlopen error timed out>");
                       ("suggestion",
                        JStr "API endpoint may be unresponsive or too slow to respond within timeout limits.") ]))).
Proof.
  split; [vm_compute; right; right; left; reflexivity|].
  repeat split; reflexivity.
Qed.

(** C7.  When the outbound call is made, the service answers 2xx, and the
    parsed answer has no [generated_text] or has the empty string there,
    [lambda_handler] returns status 500 with the body
    [{success: false, error: "No response content from the model"}], which
    has no [conversationHistory] field. *)
Theorem lambda_handler_empty_response (W : World) (event : json)
    (context : Context) (s : state) (req : Request) (timeout : Z)
    (data text : string) (answer : list (string * json)) :
  In (CallUrlopen req timeout)
     (new_calls s (lambda_handler W event context s).2) ->
  urlopen W req timeout = inr data ->
  Utf8.decode data = inr text ->
  json_loads W text = inr (JDict answer) ->
  Py.lookup "generated_text" answer = None \/
  Py.lookup "generated_text" answer = Some (JStr "") ->
  exists fields,
    (lambda_handler W event context s).1
    = inr (mkResponse 500 response_headers (json_dumps W (JDict fields))) /\
    fields = [ ("success", JBool false);
               ("error", JStr "No response content from the model") ] /\
    Py.lookup "conversationHistory" fields = None /\
    Str.contains "No response content" "No response content from the model"
    = true.
Proof.
  intros Hin Hurl Hdec Hans Hg.
  eexists. split; [|split; [reflexivity|split; reflexivity]].
  apply call_made in Hin
    as (raw & body & message & hist & _ & _ & _ & _ & -> & -> & E).
  rewrite E.
  unfold try_except, generate, bind, emit, lift, loads, raise, ret. simpl.
  rewrite Hurl, Hdec, Hans. simpl.
  destruct Hg as [-> | ->]; reflexivity.
Qed.

Lemma lambda_handler_empty_response_witness :
  exists fields,
    (lambda_handler (Sample.world Sample.table (inr (Sample.dumps Sample.empty_text)))
       (Sample.event_of Sample.hi_again) Sample.context Sample.cold).1
    = inr (mkResponse 500 response_headers (Sample.dumps (JDict fields))) /\
    fields = [ ("success", JBool false);
               ("error", JStr "No response content from the model") ] /\
    Py.lookup "conversationHistory" fields = None /\
    Str.contains "No response content" "No response content from the model"
    = true.
Proof.
  apply (lambda_handler_empty_response
           (Sample.world Sample.table (inr (Sample.dumps Sample.empty_text)))
           (Sample.event_of Sample.hi_again) Sample.context Sample.cold
           (outbound_request
              (Sample.world Sample.table (inr (Sample.dumps Sample.empty_text)))
              (JStr "again"))
           30 (Sample.dumps Sample.empty_text) (Sample.dumps Sample.empty_text)
           [("generated_text", JStr "")]);
    try reflexivity.
  - vm_compute. right; right; left; reflexivity.
  - right; reflexivity.
Defined.

(** C8.  When the body of the event is valid JSON and reading [message]
    from it fails, [lambda_handler] makes no outbound call and returns
    status 500, not 400, with the body [{success: false, error: <message>}]
    of the generic clause. *)
Theorem lambda_handler_missing_message (W : World) (event : json)
    (context : Context) (s : state) (raw : string) (body : json) (e : exn) :
  Py.getitem event "body" = inr (JStr raw) ->
  json_loads W raw = inr body ->
  Py.getitem body "message" = inl e ->
  (exists msg,
      (lambda_handler W event context s).1
      = inr (mkResponse 500 response_headers
               (json_dumps W (JDict [ ("success", JBool false);
                                      ("error", JStr msg) ])))) /\
  forallb (fun c => negb (is_urlopen c))
          (new_calls s (lambda_handler W event context s).2) = true.
Proof.
  intros Hb Hl Hm.
  destruct (lambda_handler_cases W event context s)
    as [(e' & He & E)|(raw' & body' & message & hist & Hb' & Hl' & Hm' & _)].
  - rewrite E. simpl. split; [now exists (str_exn e')|].
    rewrite (new_calls_app s _ (init_events context s)) by reflexivity.
    apply init_events_not_urlopen.
  - rewrite Hb in Hb'. inversion Hb'; subst raw'.
    rewrite Hl in Hl'. inversion Hl'; subst body'.
    rewrite Hm in Hm'. discriminate.
Qed.

Lemma lambda_handler_missing_message_witness :
  (exists msg,
      (lambda_handler (Sample.world Sample.table (inr (Sample.dumps Sample.hello)))
         (Sample.event_of Sample.no_message) Sample.context Sample.cold).1
      = inr (mkResponse 500 response_headers
               (Sample.dumps (JDict [ ("success", JBool false);
                                      ("error", JStr msg) ])))) /\
  forallb (fun c => negb (is_urlopen c))
          (new_calls Sample.cold
             (lambda_handler (Sample.world Sample.table (inr (Sample.dumps Sample.hello)))
                (Sample.event_of Sample.no_message) Sample.context Sample.cold).2)
  = true.
Proof.
  apply (lambda_handler_missing_message
           (Sample.world Sample.table (inr (Sample.dumps Sample.hello)))
           (Sample.event_of Sample.no_message) Sample.context Sample.cold
           (Sample.dumps Sample.no_message) Sample.no_message
           (KeyError "message"));
    reflexivity.
Defined.

(** ** What leaves the handler *)

(** C2 on the code: an exception leaves the handler.  A well-formed
    request is sent, the service answers 502 with a body that is not UTF-8
    text, and [error.read().decode('utf-8')] raises inside the
    [except HTTPError] clause: no clause of the [try] catches what a
    clause raises, and the [UnicodeDecodeError] is what the invocation
    ends with, no value being returned.  The same bytes in a 2xx answer
    are decoded inside the [try] block, and there [except Exception]
    turns the error into the status 500 answer with the fixed headers. *)
Theorem lambda_handler_escapes_on_error_body :
  In (CallUrlopen (outbound_request Sample.bad_gateway (JStr "again")) 30)
     (new_calls Sample.cold
        (lambda_handler Sample.bad_gateway (Sample.event_of Sample.hi_again)
           Sample.context Sample.cold).2) /\
  urlopen Sample.bad_gateway
    (outbound_request Sample.bad_gateway (JStr "again")) 30
  = inl (HTTPError 502 "Bad Gateway" Sample.truncated) /\
  Utf8.valid Sample.truncated = false /\
  (exists msg,
      (lambda_handler Sample.bad_gateway (Sample.event_of Sample.hi_again)
         Sample.context Sample.cold).1
      = inl (UnicodeDecodeError msg)) /\
  (exists msg,
      (lambda_handler (Sample.world Sample.table (inr Sample.truncated))
         (Sample.event_of Sample.hi_again) Sample.context Sample.cold).1
      = inr (mkResponse 500
               [ ("Content-Type", "application/json");
                 ("Access-Control-Allow-Origin", "*");
                 ("Access-Control-Allow-Headers",
                  "Content-Type,X-Amz-Date,Authorization,X-Api-Key,X-Amz-Security-Token");
                 ("Access-Control-Allow-Methods", "OPTIONS,POST") ]
               (Sample.dumps (JDict [ ("success", JBool false);
                                      ("error", JStr msg) ])))).
Proof.
  split; [vm_compute; right; right; left; reflexivity|].
  split; [reflexivity|]. split; [reflexivity|].
  split; eexists; reflexivity.
Qed.

(** ** The client handle *)

Lemma lambda_handler_trace (W : World) (event : json) (context : Context)
    (s : state) :
  exists outbound,
    trace (lambda_handler W event context s).2
    = (trace s ++ init_events context s ++ outbound)%list /\
    List.filter is_init outbound = [].
Proof.
  destruct (lambda_handler_cases W event context s)
    as [(e & He & E)|(raw & body & message & hist & _ & _ & _ & _ & E)];
    rewrite E; clear E.
  - exists []. simpl. now rewrite app_nil_r.
  - match goal with
    | |- context [try_except (generate W ?m (OList ?a)) _ ?s1] =>
        destruct (generate_handled_state W m a s1) as (r & s2 & E & Ht & _)
    end.
    rewrite E. simpl in *.
    exists [CallUrlopen (outbound_request W message) 30].
    split; [|reflexivity]. now rewrite Ht, <- app_assoc.
Qed.

(** An invocation that finds the handle set keeps it and neither derives
    a region nor builds a client. *)
Lemma warm_invocation (W : World) (event : json) (context : Context)
    (s : state) (c : Client) :
  bedrock_client s = Some c ->
  bedrock_client (lambda_handler W event context s).2 = Some c /\
  exists evs,
    trace (lambda_handler W event context s).2 = (trace s ++ evs)%list /\
    List.filter is_init evs = [].
Proof.
  intros Hc.
  destruct (lambda_handler_state W event context s) as (Hclient & _).
  destruct (lambda_handler_trace W event context s) as (out & Ht & Hout).
  split.
  - rewrite Hclient. unfold client_after. now rewrite Hc.
  - exists out. split; [|assumption].
    rewrite Ht. unfold init_events. now rewrite Hc.
Qed.

Lemma warm_invocations (W : World) (invocations : list (json * Context))
    (s : state) (c : Client) :
  bedrock_client s = Some c ->
  bedrock_client (invoke_all W invocations s) = Some c /\
  exists evs,
    trace (invoke_all W invocations s) = (trace s ++ evs)%list /\
    List.filter is_init evs = [].
Proof.
  revert s. induction invocations as [|[event context] rest IH]; intros s Hc.
  - simpl. split; [assumption|]. exists []. now rewrite app_nil_r.
  - simpl.
    destruct (warm_invocation W event context s c Hc) as (Hc1 & evs1 & Ht1 & Hf1).
    destruct (IH _ Hc1) as (HcN & evsN & HtN & HfN).
    split; [assumption|].
    exists (evs1 ++ evsN)%list. split.
    + now rewrite HtN, Ht1, <- app_assoc.
    + rewrite List.filter_app, Hf1, HfN. reflexivity.
Qed.

Lemma init_client_raises (W : World) (context : Context) (s : state)
    (cls msg : string) :
  bedrock_client s = None ->
  boto3_client_raises W "bedrock-runtime"
    (extract_region_from_arn (invoked_function_arn context)) = Some (cls, msg) ->
  init_client W context s
  = (inl (OtherError cls msg),
     mkState None (heap s)
       (trace s ++ [ CallExtractRegion (invoked_function_arn context);
                     CallBoto3Client "bedrock-runtime"
                       (extract_region_from_arn (invoked_function_arn context)) ])).
Proof.
  intros Hnone Hraise.
  unfold init_client, boto3_client, bind, get_client, set_client, emit,
    raise, ret.
  destruct s as [c h t]. simpl in *. subst c. simpl.
  rewrite Hraise. simpl. now rewrite <- app_assoc.
Qed.

(** C9 (as amended).  An invocation that starts with the handle [None]
    derives the region from its context and calls the constructor of the
    client, once each.  When the constructor returns, the handle is set to
    the client, and in every sequence of invocations that follows the
    handle stays what it is and neither a region is derived nor a client
    built again.  When the constructor raises, the handle stays [None],
    nothing else is called, and the exception is answered by the generic
    clause with status 500.  Any invocation that finds the handle set
    leaves it unchanged and neither derives a region nor builds a
    client. *)
Theorem client_initialized_once (W : World) (event : json) (context : Context)
    (later : list (json * Context)) (s : state) :
  bedrock_client s = None ->
  let arn := invoked_function_arn context in
  let region := extract_region_from_arn arn in
  let first := (lambda_handler W event context s).2 in
  List.filter is_init (new_calls s first)
  = [ CallExtractRegion arn; CallBoto3Client "bedrock-runtime" region ] /\
  (boto3_client_raises W "bedrock-runtime" region = None ->
   bedrock_client first = Some (mkClient "bedrock-runtime" region) /\
   bedrock_client (invoke_all W later first)
   = Some (mkClient "bedrock-runtime" region) /\
   List.filter is_init (new_calls first (invoke_all W later first)) = []) /\
  (forall cls msg : string,
      boto3_client_raises W "bedrock-runtime" region = Some (cls, msg) ->
      bedrock_client first = None /\
      new_calls s first
      = [ CallExtractRegion arn; CallBoto3Client "bedrock-runtime" region ] /\
      (lambda_handler W event context s).1
      = inr (mkResponse 500 response_headers
               (json_dumps W (JDict [ ("success", JBool false);
                                      ("error", JStr msg) ])))) /\
  (forall (c : Client) (warm : state) (event' : json) (context' : Context),
      bedrock_client warm = Some c ->
      bedrock_client (lambda_handler W event' context' warm).2 = Some c /\
      List.filter is_init
        (new_calls warm (lambda_handler W event' context' warm).2) = []).
Proof.
  intros Hnone arn region first.
  destruct (lambda_handler_state W event context s) as (Hclient & _).
  destruct (lambda_handler_trace W event context s) as (out & Ht & Hout).
  fold first in Hclient, Ht.
  split; [|split; [|split]].
  - erewrite new_calls_app by exact Ht.
    unfold init_events. rewrite Hnone. simpl. now rewrite Hout.
  - intros Hok.
    assert (Hfirst : bedrock_client first
                     = Some (mkClient "bedrock-runtime" region)).
    { rewrite Hclient. unfold client_after. fold arn. fold region.
      now rewrite Hnone, Hok. }
    destruct (warm_invocations W later first _ Hfirst)
      as (Hlast & evs & HtN & Hf).
    repeat split; try assumption.
    erewrite new_calls_app by exact HtN. assumption.
  - intros cls msg Hraise.
    assert (E : lambda_handler W event context s
                = (inr (mkResponse 500 response_headers
                          (json_dumps W (JDict [ ("success", JBool false);
                                                 ("error", JStr msg) ]))),
                   mkState None (heap s)
                     (trace s ++ [ CallExtractRegion arn;
                                   CallBoto3Client "bedrock-runtime" region ]))).
    { unfold lambda_handler, try_block, try_except, prepare, bind.
      now rewrite (init_client_raises W context s cls msg Hnone Hraise). }
    subst first. rewrite E. simpl.
    repeat split. now apply new_calls_app.
  - intros c warm event' context' Hc.
    destruct (warm_invocation W event' context' warm c Hc)
      as (Hc' & evs & Htw & Hf).
    split; [assumption|].
    erewrite new_calls_app by exact Htw. assumption.
Qed.

Lemma client_initialized_once_witness :
  (bedrock_client
     (lambda_handler (Sample.world Sample.table (inr (Sample.dumps Sample.hello)))
        (Sample.event_of Sample.hi) Sample.context Sample.cold).2
   = Some (mkClient "bedrock-runtime" "ap-northeast-1") /\
   bedrock_client
     (invoke_all (Sample.world Sample.table (inr (Sample.dumps Sample.hello)))
        [ (Sample.event_of Sample.hi_again, Sample.context_ireland);
          (Sample.event_of Sample.no_message, Sample.context) ]
        (lambda_handler (Sample.world Sample.table (inr (Sample.dumps Sample.hello)))
           (Sample.event_of Sample.hi) Sample.context Sample.cold).2)
   = Some (mkClient "bedrock-runtime" "ap-northeast-1") /\
   List.filter is_init
     (new_calls
        (lambda_handler (Sample.world Sample.table (inr (Sample.dumps Sample.hello)))
           (Sample.event_of Sample.hi) Sample.context Sample.cold).2
        (invoke_all (Sample.world Sample.table (inr (Sample.dumps Sample.hello)))
           [ (Sample.event_of Sample.hi_again, Sample.context_ireland);
             (Sample.event_of Sample.no_message, Sample.context) ]
           (lambda_handler (Sample.world Sample.table (inr (Sample.dumps Sample.hello)))
              (Sample.event_of Sample.hi) Sample.context Sample.cold).2))
   = []) /\
  (bedrock_client
     (lambda_handler Sample.no_bedrock (Sample.event_of Sample.hi)
        Sample.context Sample.cold).2 = None /\
   new_calls Sample.cold
     (lambda_handler Sample.no_bedrock (Sample.event_of Sample.hi)
        Sample.context Sample.cold).2
   = [ CallExtractRegion "arn:aws:lambda:ap-northeast-1:123:function:f";
       CallBoto3Client "bedrock-runtime" "ap-northeast-1" ] /\
   (lambda_handler Sample.no_bedrock (Sample.event_of Sample.hi)
      Sample.context Sample.cold).1
   = inr (mkResponse 500 response_headers
            (Sample.dumps
               (JDict [ ("success", JBool false);
                        ("error", JStr "Unknown service: 'bedrock-runtime'") ])))).
Proof.
  split.
  - exact (proj1 (proj2
             (client_initialized_once
                (Sample.world Sample.table (inr (Sample.dumps Sample.hello)))
                (Sample.event_of Sample.hi) Sample.context
                [ (Sample.event_of Sample.hi_again, Sample.context_ireland);
                  (Sample.event_of Sample.no_message, Sample.context) ]
                Sample.cold eq_refl))
             eq_refl).
  - exact (proj1 (proj2 (proj2
             (client_initialized_once Sample.no_bedrock
                (Sample.event_of Sample.hi) Sample.context [] Sample.cold
                eq_refl)))
             "UnknownServiceError" "Unknown service: 'bedrock-runtime'"
             eq_refl).
Defined.

(** C9 as stated fails: where [boto3.client] raises, the first invocation
    derives the region and calls the constructor, the exception is
    answered by the generic clause, and the handle is still [None]; the
    second invocation derives the region and calls the constructor
    again. *)
Lemma client_not_set_when_construction_raises :
  let first :=
    (lambda_handler Sample.no_bedrock (Sample.event_of Sample.hi)
       Sample.context Sample.cold).2 in
  let second :=
    (lambda_handler Sample.no_bedrock (Sample.event_of Sample.hi)
       Sample.context first).2 in
  bedrock_client Sample.cold = None /\
  new_calls Sample.cold first
  = [ CallExtractRegion "arn:aws:lambda:ap-northeast-1:123:function:f";
      CallBoto3Client "bedrock-runtime" "ap-northeast-1" ] /\
  bedrock_client first = None /\
  new_calls first second
  = [ CallExtractRegion "arn:aws:lambda:ap-northeast-1:123:function:f";
      CallBoto3Client "bedrock-runtime" "ap-northeast-1" ].
Proof. repeat split; reflexivity. Qed.

(** ** The history of the caller *)

(** C10.  The list of the request is not changed by the handler, on any
    path.  Every list alive before the invocation holds afterwards what it
    held; and the list parsed from [conversationHistory] (the empty list
    made when the key is absent), which is the first object of the
    invocation, at address [length (heap s)], holds at the end the items
    that were parsed, the two turns being appended to the copy.  The heap
    is the one before when the invocation stops ahead of reading the
    history. *)
Theorem history_not_mutated (W : World) (event : json) (context : Context)
    (s : state) (raw : string) (body : json) (hist : list json) :
  Py.getitem event "body" = inr (JStr raw) ->
  json_loads W raw = inr body ->
  Py.get body "conversationHistory" (JList []) = inr (JList hist) ->
  let s' := (lambda_handler W event context s).2 in
  (forall (i : nat) (l : list json), heap s !! i = Some l -> heap s' !! i = Some l) /\
  (heap s' = heap s \/ heap s' !! length (heap s) = Some hist).
Proof.
  intros Hb Hl Hh s'.
  destruct (lambda_handler_state W event context s) as (_ & Hframe & Hcases).
  fold s' in Hframe, Hcases. split.
  - intros i l Hi. rewrite Hframe; [assumption|].
    now apply lookup_lt_Some in Hi.
  - destruct Hcases
      as [[_ Heq]|(raw' & body' & message & hist' & Hb' & Hl' & _ & Hh' & _ & Hat & _)].
    + now left.
    + right.
      rewrite Hb in Hb'. inversion Hb'; subst raw'.
      rewrite Hl in Hl'. inversion Hl'; subst body'.
      rewrite Hh in Hh'. inversion Hh'; subst hist'. exact Hat.
Qed.

Lemma history_not_mutated_witness :
  let s' :=
    (lambda_handler (Sample.world Sample.table (inr (Sample.dumps Sample.hello)))
       (Sample.event_of Sample.hi_again) Sample.context
       (mkState None [[JStr "kept"]] [])).2 in
  (forall (i : nat) (l : list json),
      [[JStr "kept"]] !! i = Some l -> heap s' !! i = Some l) /\
  (heap s' = [[JStr "kept"]] \/
   heap s' !! 1%nat
   = Some [Sample.turn "user" "hi"; Sample.turn "assistant" "hello"]).
Proof.
  exact (history_not_mutated
           (Sample.world Sample.table (inr (Sample.dumps Sample.hello)))
           (Sample.event_of Sample.hi_again) Sample.context
           (mkState None [[JStr "kept"]] [])
           (Sample.dumps Sample.hi_again) Sample.hi_again
           [Sample.turn "user" "hi"; Sample.turn "assistant" "hello"]
           eq_refl eq_refl eq_refl).
Defined.

(** ** The client in a state where it exists or can be built *)

Lemma init_client_ok (W : World) (context : Context) (s : state) :
  client_after W context s <> None ->
  init_client W context s
  = (inr tt, mkState (client_after W context s) (heap s)
               (trace s ++ init_events context s)).
Proof.
  unfold init_client, boto3_client, client_after, init_events,
    bind, get_client, set_client, emit, raise, ret.
  destruct s as [[c|] h t]; simpl.
  - now rewrite app_nil_r.
  - destruct (boto3_client_raises W _ _) as [[cls msg]|]; simpl;
      [congruence|].
    now rewrite <- app_assoc.
Qed.

(** * Further properties of the code *)

(** ** The region *)

(** X1.  Whatever the identifier, the region returned is usable as one
    segment: it is not empty and holds no colon. *)
Theorem extract_region_is_segment (arn : string) :
  extract_region_from_arn arn <> EmptyString /\
  Str.colon_free (extract_region_from_arn arn) = true.
Proof.
  unfold extract_region_from_arn.
  destruct (re_search_arn arn) as [r|] eqn:E.
  - apply re_search_arn_Some in E as (Hne & Hfree & _). auto.
  - split; [discriminate | reflexivity].
Qed.

Lemma re_search_arn_leftmost (pre region rest : string) :
  region <> EmptyString -> Str.colon_free region = true ->
  exists pre' region' rest',
    lambda_arn_at pre' region' rest'
      (pre +:+ "arn:aws:lambda:" +:+ region +:+ ":" +:+ rest) /\
    (String.length pre' <= String.length pre)%nat /\
    re_search_arn (pre +:+ "arn:aws:lambda:" +:+ region +:+ ":" +:+ rest)
    = Some region'.
Proof.
  intros Hne Hfree. induction pre as [|c pre IH].
  - exists EmptyString, region, rest. repeat split; [simpl; lia|].
    assert (Hm := match_arn_here_app region rest Hne Hfree).
    simpl in *. now rewrite Hm.
  - destruct (match_arn_here
                (String c pre +:+ "arn:aws:lambda:" +:+ region +:+ ":" +:+ rest))
      as [r|] eqn:Hm.
    + destruct (match_arn_here_Some _ _ Hm) as (_ & _ & rest' & Hat).
      exists EmptyString, r, rest'. repeat split; [exact Hat | simpl; lia|].
      simpl in *. now rewrite Hm.
    + destruct IH as (pre' & region' & rest' & Hat & Hlen & Hs).
      exists (String c pre'), region', rest'. repeat split.
      * unfold lambda_arn_at in *. simpl. now f_equal.
      * simpl. lia.
      * simpl in *. now rewrite Hm.
Qed.

(** X2.  The search is not anchored.  When the literal [arn:aws:lambda:],
    a region and a colon occur anywhere in the identifier, the function
    does not fall back to the default: it returns the region of an
    occurrence that starts no later than the given one. *)
Theorem extract_region_leftmost (pre region rest arn : string) :
  lambda_arn_at pre region rest arn ->
  region <> EmptyString -> Str.colon_free region = true ->
  exists pre' region' rest',
    lambda_arn_at pre' region' rest' arn /\
    (String.length pre' <= String.length pre)%nat /\
    extract_region_from_arn arn = region'.
Proof.
  intros Hat Hne Hfree. unfold lambda_arn_at in Hat. subst arn.
  destruct (re_search_arn_leftmost pre region rest Hne Hfree)
    as (pre' & region' & rest' & Hat' & Hlen & Hs).
  exists pre', region', rest'. repeat split; try assumption.
  unfold extract_region_from_arn. now rewrite Hs.
Qed.

Lemma extract_region_leftmost_witness :
  exists pre' region' rest',
    lambda_arn_at pre' region' rest'
      "see arn:aws:lambda:eu-west-1:1:function:f" /\
    (String.length pre' <= 4)%nat /\
    extract_region_from_arn "see arn:aws:lambda:eu-west-1:1:function:f"
    = region'.
Proof.
  apply (extract_region_leftmost "see " "eu-west-1" "1:function:f");
    [reflexivity | discriminate | reflexivity].
Defined.

Lemma no_match_in_colon_free_prefix (c : Ascii.ascii) (p t : string) :
  Str.colon_free (String c p) = true ->
  match_arn_here (String c p +:+ "arn:aws:lambda:" +:+ t) = None.
Proof.
  intros H. unfold match_arn_here.
  assert (Hs : Str.strip_prefix "arn:aws:lambda:"
                 (String c p +:+ "arn:aws:lambda:" +:+ t) = None).
  { destruct p as [|c1 [|c2 [|c3 p]]];
      cbn [String.append Str.strip_prefix];
      repeat match goal with
             | |- (if Ascii.eqb ?a ?b then _ else None) = None =>
                 first [ is_var b; destruct (Ascii.eqb_spec a b);
                         [subst b|reflexivity]
                       | reflexivity ]
             end.
    discriminate H. }
  now rewrite Hs.
Qed.

(** X3.  Text without a colon in front of a Lambda ARN is skipped: the
    region returned is the region of the ARN. *)
Theorem extract_region_after_prefix (pre region rest : string) :
  Str.colon_free pre = true ->
  region <> EmptyString -> Str.colon_free region = true ->
  extract_region_from_arn
    (pre +:+ "arn:aws:lambda:" +:+ region +:+ ":" +:+ rest)
  = region.
Proof.
  intros Hpre Hne Hfree. unfold extract_region_from_arn.
  assert (Hs : re_search_arn
                 (pre +:+ "arn:aws:lambda:" +:+ region +:+ ":" +:+ rest)
               = Some region).
  { induction pre as [|c pre IH].
    - assert (Hm := match_arn_here_app region rest Hne Hfree).
      destruct region; [congruence|]. simpl in *. now rewrite Hm.
    - assert (Hm := no_match_in_colon_free_prefix c pre
                      (region +:+ ":" +:+ rest) Hpre).
      simpl in Hpre. apply andb_true_iff in Hpre as [_ Hpre].
      specialize (IH Hpre).
      simpl in *. now rewrite Hm. }
  now rewrite Hs.
Qed.

Lemma extract_region_after_prefix_witness :
  extract_region_from_arn
    ("invoked " +:+ "arn:aws:lambda:" +:+ "us-west-2" +:+ ":" +:+ "7:function:g")
  = "us-west-2".
Proof.
  apply extract_region_after_prefix; [reflexivity | discriminate | reflexivity].
Defined.

(** ** The claims of the authorizer *)

(** X4.  An event whose [requestContext] has an [authorizer] without
    [claims] is refused: line 37 raises [KeyError('claims')], the handler
    answers status 500 with the error text ['claims'] and makes no
    outbound call, whatever the body holds. *)
Theorem authorizer_without_claims (W : World) (context : Context) (s : state)
    (fields request_context authorizer : list (string * json)) :
  client_after W context s <> None ->
  Py.lookup "requestContext" fields = Some (JDict request_context) ->
  Py.lookup "authorizer" request_context = Some (JDict authorizer) ->
  Py.lookup "claims" authorizer = None ->
  (lambda_handler W (JDict fields) context s).1
  = inr (mkResponse 500 response_headers
           (json_dumps W (JDict [ ("success", JBool false);
                                  ("error", JStr "'claims'") ]))) /\
  new_calls s (lambda_handler W (JDict fields) context s).2
  = init_events context s.
Proof.
  intros Hclient Hrc Hau Hcl.
  assert (E : lambda_handler W (JDict fields) context s
              = (inr (mkResponse 500 response_headers
                        (error_body W (str_exn (KeyError "claims")))),
                 mkState (client_after W context s) (heap s)
                         (trace s ++ init_events context s))).
  { unfold lambda_handler, try_block, try_except, prepare, bind.
    rewrite (init_client_ok W context s Hclient).
    unfold read_user_info, bind, lift, ret. simpl.
    rewrite Hrc. simpl. rewrite Hau. simpl. rewrite Hcl. reflexivity. }
  rewrite E. split; [reflexivity|].
  now apply new_calls_app.
Qed.

Lemma authorizer_without_claims_witness :
  (lambda_handler (Sample.world Sample.table (inr (Sample.dumps Sample.hello)))
     (JDict [ ("body", JStr (Sample.dumps Sample.hi));
              ("requestContext",
               JDict [("authorizer", JDict [("principalId", JStr "u1")])]) ])
     Sample.context Sample.cold).1
  = inr (mkResponse 500 response_headers
           (Sample.dumps (JDict [ ("success", JBool false);
                                  ("error", JStr "'claims'") ]))) /\
  new_calls Sample.cold
    (lambda_handler (Sample.world Sample.table (inr (Sample.dumps Sample.hello)))
       (JDict [ ("body", JStr (Sample.dumps Sample.hi));
                ("requestContext",
                 JDict [("authorizer", JDict [("principalId", JStr "u1")])]) ])
       Sample.context Sample.cold).2
  = init_events Sample.context Sample.cold.
Proof.
  apply (authorizer_without_claims
           (Sample.world Sample.table (inr (Sample.dumps Sample.hello)))
           Sample.context Sample.cold
           [ ("body", JStr (Sample.dumps Sample.hi));
             ("requestContext",
              JDict [("authorizer", JDict [("principalId", JStr "u1")])]) ]
           [("authorizer", JDict [("principalId", JStr "u1")])]
           [("principalId", JStr "u1")]);
    [discriminate | reflexivity | reflexivity | reflexivity].
Defined.

Lemma bind_ext {A B} (m : M A) (k k' : A -> M B) (s : state) :
  (forall a s', k a s' = k' a s') -> bind m k s = bind m k' s.
Proof.
  intros H. unfold bind. destruct (m s) as [[e|a] s']; [reflexivity | apply H].
Qed.

Lemma bind_run {A B} (m : M A) (k : A -> M B) (s s' : state) (a : A) :
  m s = (inr a, s') -> bind m k s = k a s'.
Proof. intros H. unfold bind. now rewrite H. Qed.

Lemma read_user_info_claims (claims : list (string * json))
    (fields : list (string * json)) (s : state) :
  read_user_info
    (JDict (("requestContext",
             JDict [("authorizer", JDict [("claims", JDict claims)])])
            :: fields)) s
  = (inr tt, s).
Proof.
  unfold read_user_info, bind, lift, ret. simpl.
  destruct (Py.lookup "email" claims) as [email|]; simpl;
    [destruct (Py.truthy email)|]; reflexivity.
Qed.

(** X5.  The claims of the authorizer are read for the log and for
    nothing else: adding a [requestContext] with the claims of a user to
    an event changes neither the value returned, nor the calls made, nor
    the state left. *)
Theorem claims_only_logged (W : World) (context : Context) (s : state)
    (fields claims : list (string * json)) :
  Py.lookup "requestContext" fields = None ->
  lambda_handler W
    (JDict (("requestContext",
             JDict [("authorizer", JDict [("claims", JDict claims)])])
            :: fields))
    context s
  = lambda_handler W (JDict fields) context s.
Proof.
  intros Hnone.
  assert (Hr : forall s0, read_user_info (JDict fields) s0 = (inr tt, s0)).
  { intros s0. unfold read_user_info, bind, lift, ret. simpl.
    now rewrite Hnone. }
  assert (Hp : prepare W
                 (JDict (("requestContext",
                          JDict [("authorizer", JDict [("claims", JDict claims)])])
                         :: fields))
                 context s
               = prepare W (JDict fields) context s).
  { unfold prepare. apply bind_ext. intros [] s0.
    rewrite (bind_run _ _ _ _ _ (read_user_info_claims claims fields s0)).
    rewrite (bind_run _ _ _ _ _ (Hr s0)).
    reflexivity. }
  unfold lambda_handler, try_block, try_except, bind.
  now rewrite Hp.
Qed.

Lemma claims_only_logged_witness :
  lambda_handler (Sample.world Sample.table (inr (Sample.dumps Sample.hello)))
    (JDict [ ("requestContext",
              JDict [("authorizer",
                      JDict [("claims", JDict [("email", JStr "a@b.c")])])]);
             ("body", JStr (Sample.dumps Sample.hi)) ])
    Sample.context Sample.cold
  = lambda_handler (Sample.world Sample.table (inr (Sample.dumps Sample.hello)))
      (JDict [("body", JStr (Sample.dumps Sample.hi))])
      Sample.context Sample.cold.
Proof.
  apply (claims_only_logged
           (Sample.world Sample.table (inr (Sample.dumps Sample.hello)))
           Sample.context Sample.cold
           [("body", JStr (Sample.dumps Sample.hi))]
           [("email", JStr "a@b.c")]).
  reflexivity.
Defined.

(** ** No memory between invocations *)

Lemma read_user_info_uniform (event : json) :
  exists r, forall s, read_user_info event s = (r, s).
Proof.
  unfold read_user_info, bind, lift, ret.
  repeat (case_step; simpl); eexists; intros s; reflexivity.
Qed.

(** What [prepare] gives does not depend on the lists and the calls of the
    state it starts in. *)
Lemma prepare_uniform (W : World) (event : json) (context : Context) :
  (exists e, forall s,
      client_after W context s <> None ->
      (prepare W event context s).1 = inl e)
  \/
  (exists message hist, forall s,
      client_after W context s <> None ->
      prepare W event context s
      = (inr (message, OList (S (length (heap s)))),
         mkState (client_after W context s)
                 (heap s ++ [hist; (hist ++ [user_turn message])%list])
                 (trace s ++ init_events context s))).
Proof.
  destruct (read_user_info_uniform event) as (r1 & Hr1).
  assert (Hstart : forall s, client_after W context s <> None ->
             init_client W context s
             = (inr tt, mkState (client_after W context s) (heap s)
                          (trace s ++ init_events context s)))
    by (intros s Hc; now apply init_client_ok).
  destruct r1 as [e|[]];
    [left; exists e; intros s Hc; unfold prepare, bind;
     now rewrite (Hstart s Hc), Hr1|].
  destruct (Py.getitem event "body") as [e|raw] eqn:Eb;
    [|destruct raw as [| | | |raw| |];
      [| | | |destruct (json_loads W raw) as [msg|body] eqn:El;
              [|destruct (Py.getitem body "message") as [e|message] eqn:Em;
                [|destruct (Py.get body "conversationHistory" (JList []))
                    as [e|hv] eqn:Eh; [|destruct hv as [| | | | |hist|d]]]]| |]].
  all: try (left; eexists; intros st Hc; unfold prepare, bind;
            rewrite (Hstart st Hc), Hr1; unfold lift, loads, raise, ret;
            repeat match goal with
                   | H : Py.getitem _ _ = _ |- _ => rewrite H
                   | H : Py.get _ _ _ = _ |- _ => rewrite H
                   | H : json_loads _ _ = _ |- _ => rewrite H
                   end;
            reflexivity).
  right. exists message, hist. intros s Hc. unfold prepare, bind.
  rewrite (Hstart s Hc), Hr1. unfold lift, loads, raise, ret.
  rewrite Eb, El, Em, Eh.
  simpl. rewrite !length_app. simpl.
  replace (length (heap s) + 1)%nat with (S (length (heap s))) by lia.
  now rewrite heap_copy_append.
Qed.

Lemma handle_uniform (W : World) (e : exn) (s s' : state) :
  (handle W e s).1 = (handle W e s').1.
Proof.
  destruct e; simpl; try reflexivity.
  - unfold on_http_error, bind, lift, ret.
    destruct (Utf8.decode fp); reflexivity.
  - unfold on_url_error, bind, ret.
    destruct (Str.contains "timed out" _); reflexivity.
Qed.

Lemma generate_uniform (W : World) (message : json) (hist : list json) :
  exists r, forall (h : list (list json)) (c : option Client) (t : list call),
    (try_except (generate W message (OList (S (length h)))) (handle W)
       (mkState c (h ++ [hist; (hist ++ [user_turn message])%list]) t)).1
    = r.
Proof.
  unfold try_except, generate, bind, emit, lift, loads, raise, ret,
    append_method, deref, read.
  cbv zeta.
  destruct (urlopen W (outbound_request W message) 30) as [e|data].
  - eexists. intros h c t. simpl. apply handle_uniform with (s' := mkState None [] []).
  - destruct (Utf8.decode data) as [e|text];
      [eexists; intros h c t; simpl;
       apply handle_uniform with (s' := mkState None [] [])|].
    destruct (json_loads W text) as [msg|answer];
      [eexists; intros h c t; simpl; reflexivity|].
    destruct (Py.get answer "generated_text" (JStr "")) as [e|g];
      [eexists; intros h c t; simpl;
       apply handle_uniform with (s' := mkState None [] [])|].
    destruct (Py.truthy g); simpl;
      eexists; intros h c t; simpl;
      rewrite ?alter_second, ?lookup_second; reflexivity.
Qed.

(** X6.  The handler keeps no conversation: the value it returns for an
    event does not depend on the lists and the calls of earlier
    invocations.  In two states where the client exists or can be built,
    the same event gets the same answer. *)
Theorem response_independent_of_state (W : World) (event : json)
    (context : Context) (s s' : state) :
  client_after W context s <> None ->
  client_after W context s' <> None ->
  (lambda_handler W event context s).1 = (lambda_handler W event context s').1.
Proof.
  intros Hc Hc'.
  unfold lambda_handler, try_block.
  destruct (prepare_uniform W event context)
    as [(e & He)|(message & hist & Hp)].
  - specialize (He s Hc) as H1. specialize (He s' Hc') as H2.
    unfold try_except, bind.
    destruct (prepare W event context s) as [r1 s1].
    destruct (prepare W event context s') as [r2 s2].
    simpl in H1, H2. subst r1 r2. apply handle_uniform.
  - assert (E : forall st, client_after W context st <> None ->
                try_except
                  (bind (prepare W event context)
                        (fun prepared => generate W prepared.1 prepared.2))
                  (handle W) st
                = try_except (generate W message (OList (S (length (heap st)))))
                    (handle W)
                    (mkState (client_after W context st)
                       (heap st ++ [hist; (hist ++ [user_turn message])%list])
                       (trace st ++ init_events context st))).
    { intros st Hst. unfold try_except, bind. now rewrite (Hp st Hst). }
    rewrite (E s Hc), (E s' Hc').
    destruct (generate_uniform W message hist) as (r & Hr).
    now rewrite !Hr.
Qed.

Lemma response_independent_of_state_witness :
  (lambda_handler (Sample.world Sample.table (inr (Sample.dumps Sample.hello)))
     (Sample.event_of Sample.hi) Sample.context Sample.cold).1
  = (lambda_handler (Sample.world Sample.table (inr (Sample.dumps Sample.hello)))
       (Sample.event_of Sample.hi) Sample.context
       (lambda_handler (Sample.world Sample.table (inr (Sample.dumps Sample.hello)))
          (Sample.event_of Sample.hi_again) Sample.context_ireland Sample.cold).2).1.
Proof.
  apply (response_independent_of_state
           (Sample.world Sample.table (inr (Sample.dumps Sample.hello)))
           (Sample.event_of Sample.hi) Sample.context Sample.cold
           (lambda_handler (Sample.world Sample.table (inr (Sample.dumps Sample.hello)))
              (Sample.event_of Sample.hi_again) Sample.context_ireland Sample.cold).2);
    vm_compute; discriminate.
Defined.

(** ** Answers of the service that cannot be used *)

(** X7.  A 2xx answer that is not UTF-8 text, is not JSON, or is JSON but
    no object is answered by the generic clause: status 500 with
    [{success: false, error: <message>}].  Nothing leaves the handler
    here, unlike on the body of an HTTP error. *)
Theorem lambda_handler_malformed_answer (W : World) (event : json)
    (context : Context) (s : state) (req : Request) (timeout : Z)
    (data : string) :
  In (CallUrlopen req timeout)
     (new_calls s (lambda_handler W event context s).2) ->
  urlopen W req timeout = inr data ->
  (forall text fields,
      Utf8.decode data = inr text -> json_loads W text <> inr (JDict fields)) ->
  exists msg,
    (lambda_handler W event context s).1
    = inr (mkResponse 500 response_headers
             (json_dumps W (JDict [ ("success", JBool false);
                                    ("error", JStr msg) ]))).
Proof.
  intros Hin Hurl Hbad.
  apply call_made in Hin
    as (raw & body & message & hist & _ & _ & _ & _ & -> & -> & E).
  rewrite E.
  unfold try_except, generate, bind, emit, lift, loads, raise, ret. simpl.
  rewrite Hurl. simpl.
  destruct (Utf8.decode data) as [e|text] eqn:Hdec.
  - pose proof (decode_generic _ _ Hdec) as Hg.
    simpl. rewrite (handle_generic W e _ Hg). eexists; reflexivity.
  - simpl. destruct (json_loads W text) as [msg|answer] eqn:Hl.
    + eexists; reflexivity.
    + destruct answer; try (eexists; reflexivity).
      now destruct (Hbad text fields eq_refl).
Qed.

Lemma lambda_handler_malformed_answer_witness :
  exists msg,
    (lambda_handler (Sample.world Sample.table (inr "<html>busy</html>"))
       (Sample.event_of Sample.hi) Sample.context Sample.cold).1
    = inr (mkResponse 500 response_headers
             (Sample.dumps (JDict [ ("success", JBool false);
                                    ("error", JStr msg) ]))).
Proof.
  apply (lambda_handler_malformed_answer
           (Sample.world Sample.table (inr "<html>busy</html>"))
           (Sample.event_of Sample.hi) Sample.context Sample.cold
           (outbound_request
              (Sample.world Sample.table (inr "<html>busy</html>"))
              (JStr "hi"))
           30 "<html>busy</html>").
  - vm_compute. right; right; left; reflexivity.
  - reflexivity.
  - intros text fields Hd. inversion Hd; subst text. discriminate.
Defined.

(** X8.  [generated_text] is tested for truth, not for being a string: a
    value that Python takes for false ([null], [false], [0], [0.0], an
    empty string, list or object) is answered like a missing one, status
    500 with the error [No response content from the model]. *)
Theorem lambda_handler_falsy_text (W : World) (event : json)
    (context : Context) (s : state) (req : Request) (timeout : Z)
    (data text : string) (answer : list (string * json)) (g : json) :
  In (CallUrlopen req timeout)
     (new_calls s (lambda_handler W event context s).2) ->
  urlopen W req timeout = inr data ->
  Utf8.decode data = inr text ->
  json_loads W text = inr (JDict answer) ->
  Py.lookup "generated_text" answer = Some g ->
  Py.truthy g = false ->
  (lambda_handler W event context s).1
  = inr (mkResponse 500 response_headers
           (json_dumps W
              (JDict [ ("success", JBool false);
                       ("error", JStr "No response content from the model") ]))).
Proof.
  intros Hin Hurl Hdec Hans Hg Hfalse.
  apply call_made in Hin
    as (raw & body & message & hist & _ & _ & _ & _ & -> & -> & E).
  rewrite E.
  unfold try_except, generate, bind, emit, lift, loads, raise, ret. simpl.
  rewrite Hurl, Hdec, Hans. simpl. rewrite Hg, Hfalse. reflexivity.
Qed.

(** X9.  An exception of the outbound call that is neither an [HTTPError]
    nor a [URLError] (a timeout raised while the answer is read, say) gets
    the generic answer: status 500 with [{success: false, error:
    str(error)}], without the [Connection Error:] prefix and without the
    [suggestion]. *)
Theorem lambda_handler_other_failure (W : World) (event : json)
    (context : Context) (s : state) (req : Request) (timeout : Z) (e : exn) :
  In (CallUrlopen req timeout)
     (new_calls s (lambda_handler W event context s).2) ->
  urlopen W req timeout = inl e ->
  generic e = true ->
  (lambda_handler W event context s).1
  = inr (mkResponse 500 response_headers
           (json_dumps W (JDict [ ("success", JBool false);
                                  ("error", JStr (str_exn e)) ]))).
Proof.
  intros Hin Hurl Hg.
  apply call_made in Hin
    as (raw & body & message & hist & _ & _ & _ & _ & -> & -> & E).
  rewrite E.
  unfold try_except, generate, bind, emit, lift. simpl.
  rewrite Hurl. simpl. now rewrite (handle_generic W e _ Hg).
Qed.

Lemma lambda_handler_falsy_text_witness :
  (lambda_handler (Cases.world (inr (Sample.dumps Cases.zero_text)))
     (Sample.event_of Sample.hi) Sample.context Sample.cold).1
  = inr (mkResponse 500 response_headers
           (Sample.dumps
              (JDict [ ("success", JBool false);
                       ("error", JStr "No response content from the model") ]))).
Proof.
  apply (lambda_handler_falsy_text
           (Cases.world (inr (Sample.dumps Cases.zero_text)))
           (Sample.event_of Sample.hi) Sample.context Sample.cold
           (outbound_request (Cases.world (inr (Sample.dumps Cases.zero_text)))
              (JStr "hi"))
           30 (Sample.dumps Cases.zero_text) (Sample.dumps Cases.zero_text)
           [("generated_text", JInt 0)] (JInt 0));
    try reflexivity.
  vm_compute. right; right; left; reflexivity.
Defined.

Lemma lambda_handler_other_failure_witness :
  (lambda_handler (Cases.world (inl Cases.read_timeout))
     (Sample.event_of Sample.hi) Sample.context Sample.cold).1
  = inr (mkResponse 500 response_headers
           (Sample.dumps
              (JDict [ ("success", JBool false);
                       ("error", JStr "The read operation timed out") ]))).
Proof.
  apply (lambda_handler_other_failure
           (Cases.world (inl Cases.read_timeout))
           (Sample.event_of Sample.hi) Sample.context Sample.cold
           (outbound_request (Cases.world (inl Cases.read_timeout)) (JStr "hi"))
           30 Cases.read_timeout);
    try reflexivity.
  vm_compute. right; right; left; reflexivity.
Defined.

(** ** When the service is called *)

(** X10.  The service is called only for a request that is complete: if
    an invocation makes an outbound call, then [event['body']] is a string
    that parses, the parsed value has a [message], and its
    [conversationHistory] is a list or is absent.  A body that is missing,
    is no string or no JSON, a request without [message], or a history
    that is [null], a string or an object never costs a call. *)
Theorem outbound_call_requires (W : World) (event : json) (context : Context)
    (s : state) (req : Request) (timeout : Z) :
  In (CallUrlopen req timeout)
     (new_calls s (lambda_handler W event context s).2) ->
  exists raw body message hist,
    Py.getitem event "body" = inr (JStr raw) /\
    json_loads W raw = inr body /\
    Py.getitem body "message" = inr message /\
    Py.get body "conversationHistory" (JList []) = inr (JList hist).
Proof.
  intros Hin.
  apply call_made in Hin
    as (raw & body & message & hist & Hb & Hl & Hm & Hh & _).
  exists raw, body, message, hist. auto.
Qed.

Lemma outbound_call_requires_witness :
  exists raw body message hist,
    Py.getitem (Sample.event_of Sample.hi_again) "body" = inr (JStr raw) /\
    json_loads (Sample.world Sample.table (inr (Sample.dumps Sample.hello))) raw
    = inr body /\
    Py.getitem body "message" = inr message /\
    Py.get body "conversationHistory" (JList []) = inr (JList hist).
Proof.
  apply (outbound_call_requires
           (Sample.world Sample.table (inr (Sample.dumps Sample.hello)))
           (Sample.event_of Sample.hi_again) Sample.context Sample.cold
           (outbound_request
              (Sample.world Sample.table (inr (Sample.dumps Sample.hello)))
              (JStr "again"))
           30).
  vm_compute. right; right; left; reflexivity.
Defined.

(** X11.  A history that is not a list stops the invocation before the
    call: with [conversationHistory] an object, a string, a number or
    [null], the answer is the generic status 500 and the calls of the
    invocation are those of the initialization. *)
Theorem history_must_be_list (W : World) (event : json) (context : Context)
    (s : state) (raw : string) (body v : json) :
  Py.getitem event "body" = inr (JStr raw) ->
  json_loads W raw = inr body ->
  Py.get body "conversationHistory" (JList []) = inr v ->
  (forall hist, v <> JList hist) ->
  (exists msg,
      (lambda_handler W event context s).1
      = inr (mkResponse 500 response_headers
               (json_dumps W (JDict [ ("success", JBool false);
                                      ("error", JStr msg) ])))) /\
  new_calls s (lambda_handler W event context s).2 = init_events context s.
Proof.
  intros Hb Hl Hv Hnot.
  destruct (lambda_handler_cases W event context s)
    as [(e & He & E)|(raw' & body' & message & hist & Hb' & Hl' & _ & Hh & _)].
  - rewrite E. simpl. split; [now exists (str_exn e)|].
    now apply new_calls_app.
  - rewrite Hb in Hb'. inversion Hb'; subst raw'.
    rewrite Hl in Hl'. inversion Hl'; subst body'.
    rewrite Hv in Hh. inversion Hh. now destruct (Hnot hist).
Qed.

Lemma history_must_be_list_witness :
  (exists msg,
      (lambda_handler (Cases.world (inr (Sample.dumps Sample.hello)))
         (Sample.event_of Cases.history_object) Sample.context Sample.cold).1
      = inr (mkResponse 500 response_headers
               (Sample.dumps (JDict [ ("success", JBool false);
                                      ("error", JStr msg) ])))) /\
  new_calls Sample.cold
    (lambda_handler (Cases.world (inr (Sample.dumps Sample.hello)))
       (Sample.event_of Cases.history_object) Sample.context Sample.cold).2
  = init_events Sample.context Sample.cold.
Proof.
  apply (history_must_be_list
           (Cases.world (inr (Sample.dumps Sample.hello)))
           (Sample.event_of Cases.history_object) Sample.context Sample.cold
           (Sample.dumps Cases.history_object) Cases.history_object
           (JDict [("role", JStr "user")]));
    try reflexivity.
  intros hist. discriminate.
Defined.

(** X12.  No retry: an invocation makes at most one outbound call,
    whatever the answer to it. *)
Theorem at_most_one_outbound_call (W : World) (event : json)
    (context : Context) (s : state) :
  (length (List.filter is_urlopen
             (new_calls s (lambda_handler W event context s).2)) <= 1)%nat.
Proof.
  destruct (lambda_handler_state W event context s) as (_ & _ & Hcalls).
  pose proof (init_events_not_urlopen context s) as Hinit.
  assert (Hf : List.filter is_urlopen (init_events context s) = []).
  { unfold init_events. destruct (bedrock_client s); reflexivity. }
  destruct Hcalls as [[Hc _]|(raw & body & message & hist & _ & _ & _ & _ & Hc & _)];
    rewrite Hc.
  - rewrite Hf. simpl. lia.
  - rewrite List.filter_app, Hf. simpl. lia.
Qed.

(** ** The statuses *)

(** X15.  The handler returns two statuses only.  A value returned has
    status 500, or it has status 200, and then the outbound call was made
    for the message of the request and the body is the serialization of
    [{success: true, response: g, conversationHistory: ...}] for a [g]
    that Python takes for true, the history ending with the turn of the
    user and the turn of the assistant that holds [g]. *)
Theorem status_200_or_500 (W : World) (event : json) (context : Context)
    (s : state) (resp : Response) :
  (lambda_handler W event context s).1 = inr resp ->
  statusCode resp = 500 \/
  (statusCode resp = 200 /\
   exists message hist g,
     In (CallUrlopen (outbound_request W message) 30)
        (new_calls s (lambda_handler W event context s).2) /\
     Py.truthy g = true /\
     body resp
     = json_dumps W
         (JDict [ ("success", JBool true);
                  ("response", g);
                  ("conversationHistory",
                   JList (hist ++ [user_turn message; assistant_turn g])) ])).
Proof.
  destruct (lambda_handler_cases W event context s)
    as [(e & He & E)|(raw & body & message & hist & _ & _ & _ & _ & E)];
    rewrite E; clear E.
  - simpl. intros H. inversion H; subst. now left.
  - unfold try_except, generate, bind, emit, lift, loads, raise, ret,
      append_method, deref, read.
    simpl.
    destruct (urlopen W (outbound_request W message) 30) as [e|data].
    { destruct e; simpl;
        unfold on_exception, on_url_error, on_http_error, bind, lift, ret;
        try (intros H; inversion H; subst; now left).
      - destruct (Utf8.decode fp); intros H; inversion H; subst; now left.
      - destruct (Str.contains "timed out" _);
          intros H; inversion H; subst; now left. }
    destruct (Utf8.decode data) as [e|text] eqn:Hdec.
    { simpl. rewrite (handle_generic W e _ (decode_generic _ _ Hdec)).
      intros H; inversion H; subst; now left. }
    simpl. destruct (json_loads W text) as [msg|answer].
    { simpl. intros H; inversion H; subst; now left. }
    destruct (Py.get answer "generated_text" (JStr "")) as [e|g] eqn:Hget.
    { simpl. rewrite (handle_generic W e _ (get_generic _ _ _ _ Hget)).
      intros H; inversion H; subst; now left. }
    simpl. destruct (Py.truthy g) eqn:Htrue; simpl.
    + rewrite alter_second, lookup_second. simpl.
      intros H; inversion H; subst. right. split; [reflexivity|].
      exists message, hist, g. simpl. repeat split; try assumption.
      * erewrite new_calls_app by (simpl; now rewrite <- app_assoc).
        apply in_or_app. right. left. reflexivity.
      * now rewrite <- app_assoc.
    + intros H; inversion H; subst; now left.
Qed.

Lemma status_200_or_500_witness :
  statusCode
    (mkResponse 200 response_headers
       (Sample.dumps
          (JDict [ ("success", JBool true);
                   ("response", JStr "hello");
                   ("conversationHistory",
                    JList [user_turn (JStr "hi");
                           assistant_turn (JStr "hello")]) ]))) = 500 \/
  (statusCode
     (mkResponse 200 response_headers
        (Sample.dumps
           (JDict [ ("success", JBool true);
                    ("response", JStr "hello");
                    ("conversationHistory",
                     JList [user_turn (JStr "hi");
                            assistant_turn (JStr "hello")]) ]))) = 200 /\
   exists message hist g,
     In (CallUrlopen
           (outbound_request
              (Sample.world Sample.table (inr (Sample.dumps Sample.hello)))
              message) 30)
        (new_calls Sample.cold
           (lambda_handler
              (Sample.world Sample.table (inr (Sample.dumps Sample.hello)))
              (Sample.event_of Sample.hi) Sample.context Sample.cold).2) /\
     Py.truthy g = true /\
     Sample.dumps
       (JDict [ ("success", JBool true);
                ("response", JStr "hello");
                ("conversationHistory",
                 JList [user_turn (JStr "hi"); assistant_turn (JStr "hello")]) ])
     = Sample.dumps
         (JDict [ ("success", JBool true);
                  ("response", g);
                  ("conversationHistory",
                   JList (hist ++ [user_turn message; assistant_turn g])) ])).
Proof.
  exact (status_200_or_500
           (Sample.world Sample.table (inr (Sample.dumps Sample.hello)))
           (Sample.event_of Sample.hi) Sample.context Sample.cold
           (mkResponse 200 response_headers
              (Sample.dumps
                 (JDict [ ("success", JBool true);
                          ("response", JStr "hello");
                          ("conversationHistory",
                           JList [user_turn (JStr "hi");
                                  assistant_turn (JStr "hello")]) ])))
           eq_refl).
Defined.

(** X16.  Every request that is not complete is refused in the same way.
    When [event['body']] is missing or no string, does not parse, has no
    [message], or has a history that is no list, the handler returns the
    generic status 500 with [{success: false, error: <message>}] and makes
    no outbound call: there is no status 400 and no answer of its own for
    a bad request. *)
Theorem incomplete_request_refused (W : World) (event : json)
    (context : Context) (s : state) :
  (forall raw body message hist,
      Py.getitem event "body" = inr (JStr raw) ->
      json_loads W raw = inr body ->
      Py.getitem body "message" = inr message ->
      Py.get body "conversationHistory" (JList []) <> inr (JList hist)) ->
  (exists msg,
      (lambda_handler W event context s).1
      = inr (mkResponse 500 response_headers
               (json_dumps W (JDict [ ("success", JBool false);
                                      ("error", JStr msg) ])))) /\
  new_calls s (lambda_handler W event context s).2 = init_events context s.
Proof.
  intros Hbad.
  destruct (lambda_handler_cases W event context s)
    as [(e & He & E)|(raw & body & message & hist & Hb & Hl & Hm & Hh & _)].
  - rewrite E. simpl. split; [now exists (str_exn e)|].
    now apply new_calls_app.
  - now destruct (Hbad raw body message hist Hb Hl Hm).
Qed.

Lemma incomplete_request_refused_witness :
  (exists msg,
      (lambda_handler (Sample.world Sample.table (inr (Sample.dumps Sample.hello)))
         (JDict [("body", JNull)]) Sample.context Sample.cold).1
      = inr (mkResponse 500 response_headers
               (Sample.dumps (JDict [ ("success", JBool false);
                                      ("error", JStr msg) ])))) /\
  new_calls Sample.cold
    (lambda_handler (Sample.world Sample.table (inr (Sample.dumps Sample.hello)))
       (JDict [("body", JNull)]) Sample.context Sample.cold).2
  = init_events Sample.context Sample.cold.
Proof.
  apply (incomplete_request_refused
           (Sample.world Sample.table (inr (Sample.dumps Sample.hello)))
           (JDict [("body", JNull)]) Sample.context Sample.cold).
  intros raw body message hist Hb. discriminate Hb.
Defined.
